(** * The difference area chart visual (differenceAreaChart.ts)

    A shallow embedding of the view-model builder, the settings
    resolution, the chart geometry, the property enumeration, the hover
    lookup and the [update] entry point of [DifferenceAreaChart].

    Conventions of the embedding:
    - a JavaScript value that the code tests for presence ([x && x.f],
      [if (!x)]) is an [option]; [None] stands for [undefined]/[null];
    - reading a property of [undefined] raises a [TypeError]; fallible
      code runs in the [Result] monad;
    - a [number] is a rational [Q] (pixels, stroke widths, positions on
      the x axis); a measure cell is a [PrimitiveValue];
    - strings produced by the host's formatter and tooltip builder are
      kept symbolic: the record of the arguments they were made from;
    - the DOM is a log of the drawing operations performed, oldest first;
    - where the code compares references ([indexOf]), whether two
      references are the same object is an explicit argument. *)

From Stdlib Require Import QArith Qround Lqa.
From stdpp Require Import base option list strings gmap.

Open Scope string_scope.
Open Scope list_scope.

(** ** Errors *)

Inductive JsError :=
| TypeError (reading : string).

Inductive Result (A : Type) :=
| Ok (a : A)
| Throw (e : JsError).
Arguments Ok {A} a.
Arguments Throw {A} e.

Global Instance Result_ret : MRet Result := λ A a, Ok a.
Global Instance Result_bind : MBind Result := λ A B f m,
  match m with
  | Ok a => f a
  | Throw e => Throw e
  end.

(** [o.f] where [o] may be [undefined]. *)
Definition prop {A : Type} (reading : string) (o : option A) : Result A :=
  match o with
  | Some a => Ok a
  | None => Throw (TypeError reading)
  end.

(** ** The host's dataset *)

Definition number := Q.
Bind Scope Q_scope with number.

Inductive PrimitiveValue :=
| PNumber (n : number)
| PNull
| PUndefined.

Inductive ValueType :=
| TypeText | TypeNumeric | TypeInteger | TypeBool | TypeDateTime.

Record DataViewMetadataColumn := {
  displayName : string;
  roles : option (gmap string bool);
  format : option string;
  type : option ValueType;
}.

Record DataViewValueColumn := {
  column_source : option DataViewMetadataColumn;
  column_values : option (list PrimitiveValue);
}.

Record DataViewValueColumnGroup := {
  group_values : list DataViewValueColumn;
}.

(** [DataViewValueColumns]: the code only tests the array for presence
    and calls [grouped()], whose result the host supplies. *)
Record DataViewValueColumns := {
  grouped : list DataViewValueColumnGroup;
}.

Record DataViewScopeIdentity := {
  identity_key : string;
}.

Record DataViewCategoryColumn := {
  category_source : option DataViewMetadataColumn;
  category_values : list string;
  category_identity : option (list DataViewScopeIdentity);
}.

Record DataViewCategorical := {
  categories : option (list DataViewCategoryColumn);
  values : option DataViewValueColumns;
}.

(** ** The property store *)

Inductive DataViewPropertyValue :=
| PropBool (b : bool)
| PropNumber (n : number)
| PropText (s : string)
| PropFill (solidColor : string).

Record DataViewObjectPropertyIdentifier := {
  objectName : string;
  propertyName : string;
}.

Record DataViewMetadata := {
  columns : list DataViewMetadataColumn;
  objects : option (gmap string (gmap string DataViewPropertyValue));
}.

Record DataView := {
  metadata : option DataViewMetadata;
  categorical : option DataViewCategorical;
}.

(** ** The view model *)

Record DifferenceAreaChartOutlineSettings := {
  showOutline : bool;
  size : number;
}.

Record DifferenceAreaChartColorSettings := {
  highColor : string;
  lowColor : string;
}.

Record DifferenceAreaChartSettings := {
  outline : DifferenceAreaChartOutlineSettings;
  colors : DifferenceAreaChartColorSettings;
}.

Record ValueFormatterOptions := {
  vf_format : option string;
  allowFormatBeautification : bool;
  columnType : option ValueType;
}.

(** The text [valueFormatter.create(options).format(value)]. *)
Record FormattedValue := {
  formatter : ValueFormatterOptions;
  formatted : PrimitiveValue;
}.

Record TooltipSeriesDataItem := {
  item_value : FormattedValue;
  item_metadata : option DataViewValueColumn;
}.

(** Modelled from the spec: [TooltipBuilder.createTooltipInfo] is not among
    the sources; the payload pairs the category label with the formatted
    measure values, tagged with their source columns. *)
Record TooltipInfo := {
  tooltip_formatString : DataViewObjectPropertyIdentifier;
  tooltip_categoryValue : option string;
  tooltip_categories : list (option DataViewCategoryColumn);
  tooltip_seriesData : list TooltipSeriesDataItem;
}.

Record DifferenceAreaChartDataPoint := {
  low : PrimitiveValue;
  high : PrimitiveValue;
  categoryIndex : nat;
  categoryValue : option string;
  tooltipInfo : TooltipInfo;
}.

Inductive Selector :=
| SelectorWithId (id : option DataViewScopeIdentity)
| SelectorNull.

Record DifferenceAreaChartViewModel := {
  settings : DifferenceAreaChartSettings;
  data : list DifferenceAreaChartDataPoint;
  selector : Selector;
}.

(** ** Host helpers *)

(** Modelled from the spec: [valueFormatter.format(null)], the label of
    the synthetic category used when there is no category column. *)
Definition valueFormatter_format_null : string := "(Blank)".

Definition valueFormatter_create (options : ValueFormatterOptions)
  (value : PrimitiveValue) : FormattedValue :=
  {| formatter := options; formatted := value |}.

Definition createTooltipInfo (formatStringProp : DataViewObjectPropertyIdentifier)
  (categoryValue : option string)
  (categoryColumns : list (option DataViewCategoryColumn))
  (seriesData : list TooltipSeriesDataItem) : TooltipInfo :=
  {| tooltip_formatString := formatStringProp;
     tooltip_categoryValue := categoryValue;
     tooltip_categories := categoryColumns;
     tooltip_seriesData := seriesData |}.

(** A column carries a role when its [roles] table maps the name to [true]. *)
Definition hasRole (column : DataViewMetadataColumn) (name : string) : bool :=
  match roles column with
  | Some r => bool_decide (r !! name = Some true)
  | None => false
  end.

Definition carriesRole (name : string) (column : DataViewValueColumn) : bool :=
  match column_source column with
  | Some source => hasRole source name
  | None => false
  end.

Fixpoint indexOfRole (columns : list DataViewValueColumn) (roleName : string)
  (i : Z) : Z :=
  match columns with
  | [] => -1
  | column :: rest =>
      if carriesRole roleName column then i
      else indexOfRole rest roleName (i + 1)
  end.

(** Modelled from the spec: [DataRoleHelper.getMeasureIndexOfRole] is not
    among the sources. It locates, by declared role metadata, the index of
    the column tagged with the role among the columns of the first series
    group (the groups share one column layout), and answers [-1] when the
    role cannot be found. *)
Definition getMeasureIndexOfRole (grouped : list DataViewValueColumnGroup)
  (roleName : string) : Z :=
  match grouped with
  | [] => -1
  | firstGroup :: _ => indexOfRole (group_values firstGroup) roleName 0
  end.

(** ** DifferenceAreaChart.Properties *)

Module Properties.
Definition general_formatString : DataViewObjectPropertyIdentifier :=
  {| objectName := "general"; propertyName := "formatString" |}.
Definition outline_show : DataViewObjectPropertyIdentifier :=
  {| objectName := "outline"; propertyName := "show" |}.
Definition outline_size : DataViewObjectPropertyIdentifier :=
  {| objectName := "outline"; propertyName := "size" |}.
Definition colors_highColor : DataViewObjectPropertyIdentifier :=
  {| objectName := "colors"; propertyName := "highColor" |}.
Definition colors_lowColor : DataViewObjectPropertyIdentifier :=
  {| objectName := "colors"; propertyName := "lowColor" |}.
End Properties.

(** ** The view-model builder *)

(** [array[i]] for a numeric index: [undefined] out of range. *)
Definition at_index {A : Type} (array : list A) (i : Z) : option A :=
  if (i <? 0)%Z then None else array !! Z.to_nat i.

(** The local [categories] of [parseToDataPoints]: the first category
    column, or a synthetic one when there is none. *)
Definition firstCategoryOrBlank (dataViewCategorical : DataViewCategorical)
  : DataViewCategoryColumn :=
  match categories dataViewCategorical with
  | Some (first :: _) => first
  | _ => {| category_source := None;
            category_values := [valueFormatter_format_null];
            category_identity := None |}
  end.

(** [measure && measure.values ? measure.values[categoryIndex] : 0] *)
Definition measureValue (measure : option DataViewValueColumn)
  (categoryIndex : nat) : PrimitiveValue :=
  match measure with
  | Some m =>
      match column_values m with
      | Some cells => default PUndefined (cells !! categoryIndex)
      | None => PNumber 0%Q
      end
  | None => PNumber 0%Q
  end.

(** The body of the inner loop: one data point. *)
Definition parseDataPoint (dataViewCategorical : DataViewCategorical)
  (firstCategory : DataViewCategoryColumn)
  (seriesValues : list DataViewValueColumn)
  (lowMeasureIndex highMeasureIndex : Z)
  (categoryIndex : nat) : Result DifferenceAreaChartDataPoint :=
  let categoryValue := category_values firstCategory !! categoryIndex in
  let lowMeasure := at_index seriesValues lowMeasureIndex in
  let highMeasure := at_index seriesValues highMeasureIndex in
  let lowValue := measureValue lowMeasure categoryIndex in
  let highValue := measureValue highMeasure categoryIndex in
  columns ← prop "dataViewCategorical.categories[0]" (categories dataViewCategorical);
  let categoryColumns := [columns !! 0%nat] in
  (* format: lowMeasure.source.format, with no guard *)
  lowColumn ← prop "lowMeasure.source" lowMeasure;
  lowSource ← prop "lowMeasure.source.format" (column_source lowColumn);
  let formatterLow := valueFormatter_create
    {| vf_format := format lowSource;
       allowFormatBeautification := true;
       columnType := type lowSource |} in
  (* format: highMeasure && highMeasure.source && highMeasure.source.format *)
  let formatterHigh := valueFormatter_create
    {| vf_format := (highMeasure ≫= column_source) ≫= format;
       allowFormatBeautification := true;
       columnType := (highMeasure ≫= column_source) ≫= type |} in
  let lowValueFormatted := formatterLow lowValue in
  let highValueFormatted := formatterHigh highValue in
  let seriesData :=
    [ {| item_value := lowValueFormatted; item_metadata := lowMeasure |};
      {| item_value := highValueFormatted; item_metadata := highMeasure |} ] in
  let tooltipInfo := createTooltipInfo Properties.general_formatString
                       categoryValue categoryColumns seriesData in
  Ok {| low := lowValue;
        high := highValue;
        categoryValue := categoryValue;
        categoryIndex := categoryIndex;
        tooltipInfo := tooltipInfo |}.

(** [for (categoryIndex = ...; categoryIndex < bound; categoryIndex++)],
    with [remaining = bound - categoryIndex]. *)
Fixpoint categoryLoop (body : nat → Result DifferenceAreaChartDataPoint)
  (remaining categoryIndex : nat)
  (dataPoints : list DifferenceAreaChartDataPoint)
  : Result (list DifferenceAreaChartDataPoint) :=
  match remaining with
  | O => Ok dataPoints
  | S remaining' =>
      dataPoint ← body categoryIndex;
      categoryLoop body remaining' (S categoryIndex) (dataPoints ++ [dataPoint])
  end.

(** [for (seriesIndex = ...; seriesIndex < seriesLength; seriesIndex++)]
    over the groups from [seriesIndex] on. The bound of the inner loop
    reads [dataViewCategorical.categories[seriesIndex].values.length]. *)
Fixpoint seriesLoop (dataViewCategorical : DataViewCategorical)
  (firstCategory : DataViewCategoryColumn)
  (lowMeasureIndex highMeasureIndex : Z)
  (groups : list DataViewValueColumnGroup) (seriesIndex : nat)
  (dataPoints : list DifferenceAreaChartDataPoint)
  : Result (list DifferenceAreaChartDataPoint) :=
  match groups with
  | [] => Ok dataPoints
  | grouping :: rest =>
      let seriesValues := group_values grouping in
      columns ← prop "dataViewCategorical.categories[seriesIndex]"
                  (categories dataViewCategorical);
      column ← prop "dataViewCategorical.categories[seriesIndex].values"
                 (columns !! seriesIndex);
      dataPoints' ← categoryLoop
        (parseDataPoint dataViewCategorical firstCategory seriesValues
           lowMeasureIndex highMeasureIndex)
        (length (category_values column)) 0 dataPoints;
      seriesLoop dataViewCategorical firstCategory
        lowMeasureIndex highMeasureIndex rest (S seriesIndex) dataPoints'
  end.

Definition groupedValues (dataViewCategorical : DataViewCategorical)
  : list DataViewValueColumnGroup :=
  match values dataViewCategorical with
  | Some valueColumns => grouped valueColumns
  | None => []
  end.

Definition parseToDataPoints (dataViewCategorical : DataViewCategorical)
  : Result (list DifferenceAreaChartDataPoint) :=
  let firstCategory := firstCategoryOrBlank dataViewCategorical in
  let grouped := groupedValues dataViewCategorical in
  let lowMeasureIndex := getMeasureIndexOfRole grouped "Low" in
  let highMeasureIndex := getMeasureIndexOfRole grouped "High" in
  if (0 <=? lowMeasureIndex)%Z && (0 <=? highMeasureIndex)%Z
  then seriesLoop dataViewCategorical firstCategory
         lowMeasureIndex highMeasureIndex grouped 0 []
  else Ok [].

(** JavaScript truthiness of an object reference. *)
Definition truthy {A : Type} (o : option A) : bool :=
  match o with
  | Some _ => true
  | None => false
  end.

Definition isDataViewValid (dataView : option DataView) : bool :=
  truthy dataView
  && truthy (dataView ≫= categorical)
  && truthy ((dataView ≫= categorical) ≫= categories)
  && truthy (dataView ≫= metadata)
  && truthy (((dataView ≫= categorical) ≫= categories) ≫= (λ columns, columns !! 0%nat))
  && truthy ((dataView ≫= categorical) ≫= values).

(** ** Settings *)

Definition getDefaultColorSettings : DifferenceAreaChartColorSettings :=
  {| highColor := "Green"; lowColor := "Red" |}.

Definition getDefaultOutlineSettings : DifferenceAreaChartOutlineSettings :=
  {| showOutline := true; size := 2%Q |}.

Definition getDefaultChartSettings : DifferenceAreaChartSettings :=
  {| outline := getDefaultOutlineSettings; colors := getDefaultColorSettings |}.

Module DataViewObjects.
(** The value the property store holds for a property, if any. *)
Definition stored (objects : gmap string (gmap string DataViewPropertyValue))
  (propertyId : DataViewObjectPropertyIdentifier) : option DataViewPropertyValue :=
  objects !! objectName propertyId ≫= (λ object, object !! propertyName propertyId).

(** Modelled from the spec: [DataViewObjects.getValue] and
    [DataViewObjects.getFillColor] are not among the sources. Each
    answers the value found in the property store for the property, read
    at the property's declared type (bool, number, fill colour), and the
    default when the store has none. *)
Definition getValue_boolean objects propertyId (defaultValue : bool) : bool :=
  match stored objects propertyId with
  | Some (PropBool b) => b
  | _ => defaultValue
  end.

Definition getValue_number objects propertyId (defaultValue : number) : number :=
  match stored objects propertyId with
  | Some (PropNumber n) => n
  | _ => defaultValue
  end.

Definition getFillColor objects propertyId (defaultColor : string) : string :=
  match stored objects propertyId with
  | Some (PropFill solidColor) => solidColor
  | _ => defaultColor
  end.
End DataViewObjects.

Definition getObjectsFromDataView (dataView : option DataView)
  : option (gmap string (gmap string DataViewPropertyValue)) :=
  (dataView ≫= metadata) ≫= objects.

(** The result is the object reference that [convertToViewModel] tests
    with [if (!settings)]. *)
Definition parseSettings (dataView : option DataView)
  : option DifferenceAreaChartSettings :=
  let defaultSettings := getDefaultChartSettings in
  match getObjectsFromDataView dataView with
  | Some objects =>
      Some
        {| outline :=
             {| showOutline := DataViewObjects.getValue_boolean objects
                  Properties.outline_show (showOutline (outline defaultSettings));
                size := DataViewObjects.getValue_number objects
                  Properties.outline_size (size (outline defaultSettings)) |};
           colors :=
             {| highColor := DataViewObjects.getFillColor objects
                  Properties.colors_highColor (highColor (colors defaultSettings));
                lowColor := DataViewObjects.getFillColor objects
                  Properties.colors_lowColor (lowColor (colors defaultSettings)) |} |}
  | None => Some defaultSettings
  end.

Definition convertToViewModel (dataView : option DataView)
  : Result (option DifferenceAreaChartViewModel) :=
  match dataView with
  | None => Ok None
  | Some dv =>
      if negb (isDataViewValid dataView) then Ok None
      else
        match parseSettings dataView with
        | None => Ok None
        | Some settings =>
            dataViewCategorical ← prop "dataView.categorical" (categorical dv);
            columns ← prop "dataView.categorical.categories"
                        (categories dataViewCategorical);
            first ← prop "dataView.categorical.categories[0].identity"
                      (columns !! 0%nat);
            let selector :=
              match category_identity first with
              | Some identities => SelectorWithId (identities !! 0%nat)
              | None => SelectorNull
              end in
            dataPoints ← parseToDataPoints dataViewCategorical;
            Ok (Some {| data := dataPoints;
                        settings := settings;
                        selector := selector |})
        end
  end.

(** ** Chart geometry (DifferenceAreaChartRendering.DifferenceAreaChartGeometry) *)

Record IViewport := {
  viewport_height : number;
  viewport_width : number;
}.

Record IMargin := {
  margin_left : number;
  margin_right : number;
  margin_bottom : number;
  margin_top : number;
}.

Record DifferenceAreaChartGeometry := {
  margin : IMargin;
  viewportNoMargins : IViewport;
}.

(** [x > 0] on numbers. *)
Definition positive (x : number) : bool := negb (Qle_bool x 0).

Module Geometry.
Definition new (margin : IMargin) : DifferenceAreaChartGeometry :=
  {| margin := margin;
     viewportNoMargins := {| viewport_height := 0; viewport_width := 0 |} |}.

Definition getViewportWithNoMargins (this : DifferenceAreaChartGeometry)
  : IViewport := viewportNoMargins this.

Definition getViewport (this : DifferenceAreaChartGeometry) : IViewport :=
  {| viewport_width :=
       viewport_width (viewportNoMargins this)
       - margin_left (margin this) - margin_right (margin this);
     viewport_height :=
       viewport_height (viewportNoMargins this)
       - margin_top (margin this) - margin_bottom (margin this) |}.

Definition getMargin (this : DifferenceAreaChartGeometry) : IMargin :=
  margin this.

Definition init (this : DifferenceAreaChartGeometry) (newViewport : IViewport)
  : DifferenceAreaChartGeometry :=
  {| margin := margin this; viewportNoMargins := newViewport |}.

Definition update (this : DifferenceAreaChartGeometry) (newViewport : IViewport)
  : DifferenceAreaChartGeometry :=
  {| margin := margin this; viewportNoMargins := newViewport |}.

Definition isValid (this : DifferenceAreaChartGeometry) : bool :=
  let viewport := getViewport this in
  positive (viewport_width viewport) && positive (viewport_height viewport).
End Geometry.

(** ** The visual and its drawing surface *)

Inductive ElementSource :=
| BySelector   (* [currentGroup.select(selector)]: redraw in an existing group *)
| ByAppend.    (* [gEnter.append(name)]: create in an entering group *)

Record DifferenceChartDiffLineDataPoint := {
  point_value : PrimitiveValue;
  point_color : string;
  point_categoryIndex : Z;
}.

Inductive DomOp :=
| AppendSvg
| AppendChartGroup
| AppendPlotOverlay
| SvgSize (height width : number)
| PlotOverlayBox (width height : number) (translateX translateY : number)
| ChartTranslate (translateX translateY : number)
| BindChartGroups (bound : nat)
| RemoveClipPathPaths
| RenderPlotArea (source : ElementSource)
    (viewModel : DifferenceAreaChartViewModel) (viewport : IViewport)
| RemoveExitGroups
| AddTooltip
| RemoveAllFromChart
| HoverLine (drawAtX : Z) (y1 y2 : PrimitiveValue)
| HoverCircles (points : list DifferenceChartDiffLineDataPoint)
| HideHoverLine
| RemoveHoverCircles.

(** The visual. Its selections ([svg], [chart], [plotOverlay]) are
    represented by [drawn], the operations performed on them. *)
Record DifferenceAreaChart := {
  geometry : DifferenceAreaChartGeometry;
  uniqueVisualId : string;
  viewModel : option DifferenceAreaChartViewModel;
  drawn : list DomOp;
}.

Record VisualInitOptions := {
  init_viewport : IViewport;
}.

Record VisualUpdateOptions := {
  dataViews : option (list (option DataView));
  viewport : IViewport;
}.

Record EnumerateVisualObjectInstancesOptions := {
  enumerate_objectName : string;
}.

Record VisualObjectInstance := {
  instance_selector : option Selector;
  instance_objectName : string;
  properties : gmap string DataViewPropertyValue;
}.

(** The default margins of the visual. *)
Definition defaultMargin : IMargin :=
  {| margin_left := 45; margin_right := 30; margin_bottom := 10; margin_top := 10 |}.

Definition constructor (uniqueId : string) : DifferenceAreaChart :=
  {| geometry := Geometry.new defaultMargin;
     uniqueVisualId := uniqueId;
     viewModel := None;
     drawn := [] |}.

(** Assignments to the fields of [this]. *)
Definition set_geometry (this : DifferenceAreaChart)
  (newGeometry : DifferenceAreaChartGeometry) : DifferenceAreaChart :=
  {| geometry := newGeometry;
     uniqueVisualId := uniqueVisualId this;
     viewModel := viewModel this;
     drawn := drawn this |}.

Definition set_viewModel (this : DifferenceAreaChart)
  (newViewModel : option DifferenceAreaChartViewModel) : DifferenceAreaChart :=
  {| geometry := geometry this;
     uniqueVisualId := uniqueVisualId this;
     viewModel := newViewModel;
     drawn := drawn this |}.

Definition draw (this : DifferenceAreaChart) (ops : list DomOp)
  : DifferenceAreaChart :=
  {| geometry := geometry this;
     uniqueVisualId := uniqueVisualId this;
     viewModel := viewModel this;
     drawn := drawn this ++ ops |}.

Definition init (this : DifferenceAreaChart) (options : VisualInitOptions)
  : DifferenceAreaChart :=
  let this := draw this [AppendSvg; AppendChartGroup; AppendPlotOverlay] in
  set_geometry this (Geometry.init (geometry this) (init_viewport options)).

Definition updateChartSize (this : DifferenceAreaChart)
  (geometry : DifferenceAreaChartGeometry) : DifferenceAreaChart :=
  if Geometry.isValid geometry then
    let viewPort := Geometry.getViewportWithNoMargins geometry in
    let margin := Geometry.getMargin geometry in
    draw this
      [ SvgSize (viewport_height viewPort) (viewport_width viewPort);
        PlotOverlayBox (viewport_width (Geometry.getViewport geometry))
          (viewport_height (Geometry.getViewport geometry))
          (margin_left margin) (margin_top margin);
        ChartTranslate (margin_left margin) (margin_top margin) ]
  else this.

(** [render]: the drawing it performs, in order. The chart group is bound
    to [data.length > 0 ? [data] : data], one datum or none. *)
Definition render (this : DifferenceAreaChart)
  (viewModel : option DifferenceAreaChartViewModel)
  (geometry : DifferenceAreaChartGeometry) : DifferenceAreaChart :=
  match viewModel with
  | None => this
  | Some viewModel =>
      if negb (Geometry.isValid geometry) then this
      else
        let viewport := Geometry.getViewport geometry in
        let bound := if (0 <? length (data viewModel))%nat then 1%nat else 0%nat in
        draw this
          ([BindChartGroups bound]
           ++ concat (replicate bound
                        [RemoveClipPathPaths;
                         RenderPlotArea BySelector viewModel viewport])
           ++ [RenderPlotArea ByAppend viewModel viewport;
               RemoveExitGroups;
               AddTooltip])
  end.

Definition cleanPlotArea (this : DifferenceAreaChart) : DifferenceAreaChart :=
  draw this [RemoveAllFromChart].

(** [update]: the visual it leaves, or the error it raises to the host. *)
Definition update (this : DifferenceAreaChart) (options : VisualUpdateOptions)
  : Result DifferenceAreaChart :=
  (* if (!options.dataViews && !options.dataViews[0]) return; *)
  guard ←
    (if negb (truthy (dataViews options))
     then views ← prop "options.dataViews[0]" (dataViews options);
          Ok (negb (truthy (mjoin (views !! 0%nat))))
     else Ok false);
  if (guard : bool) then Ok this
  else
    views ← prop "options.dataViews[0]" (dataViews options);
    let dataView := mjoin (views !! 0%nat) in
    let this :=
      set_geometry this (Geometry.update (geometry this) (viewport options)) in
    let this := updateChartSize this (geometry this) in
    converted ← convertToViewModel dataView;
    let this := set_viewModel this converted in
    if truthy (viewModel this)
    then Ok (render this (viewModel this) (geometry this))
    else Ok (cleanPlotArea this).

(** ** Property enumeration *)

Definition enumerateOutlineOptions (model : DifferenceAreaChartViewModel)
  : list VisualObjectInstance :=
  [ {| instance_selector := None;
       instance_objectName := "outline";
       properties :=
         {[ "show" := PropBool (showOutline (outline (settings model)));
            "size" := PropNumber (size (outline (settings model))) ]} |} ].

Definition enumerateColorOptions (model : DifferenceAreaChartViewModel)
  : list VisualObjectInstance :=
  [ {| instance_selector := None;
       instance_objectName := "colors";
       properties :=
         {[ "lowColor" := PropText (lowColor (colors (settings model)));
            "highColor" := PropText (highColor (colors (settings model))) ]} |} ].

(** [None] is the [undefined] the method returns without a view model and
    for a name the [switch] has no case for. *)
Definition enumerateObjectInstances (this : DifferenceAreaChart)
  (options : EnumerateVisualObjectInstancesOptions)
  : option (list VisualObjectInstance) :=
  match viewModel this with
  | None => None
  | Some data =>
      if String.eqb (enumerate_objectName options) "outline"
      then Some (enumerateOutlineOptions data)
      else if String.eqb (enumerate_objectName options) "colors"
      then Some (enumerateColorOptions data)
      else None
  end.

(** ** Hover lookup *)

(** [Math.round]: the nearest integer, a tie going up. *)
Definition Math_round (x : number) : Z := Qfloor (x + (1 # 2)).

Definition getClosestDataPoint (xIndex : number)
  (points : list DifferenceAreaChartDataPoint)
  : option DifferenceAreaChartDataPoint :=
  let closestValueCatIndex := Math_round xIndex in
  at_index points closestValueCatIndex.

Definition defined (value : PrimitiveValue) : bool :=
  match value with
  | PNumber _ => true
  | PNull | PUndefined => false
  end.

Definition drawHoverLine (this : DifferenceAreaChart)
  (dataPoint : DifferenceAreaChartDataPoint) (drawAtX : Z)
  : DifferenceAreaChart :=
  draw this [HoverLine drawAtX (high dataPoint) (low dataPoint)].

Definition drawHoverLineDataPoints (this : DifferenceAreaChart)
  (chartColors : DifferenceAreaChartColorSettings)
  (dataPoint : DifferenceAreaChartDataPoint) (drawAtX : Z)
  : DifferenceAreaChart :=
  let points :=
    (if defined (high dataPoint)
     then [ {| point_categoryIndex := drawAtX;
               point_color := highColor chartColors;
               point_value := high dataPoint |} ]
     else [])
    ++
    (if defined (low dataPoint)
     then [ {| point_categoryIndex := drawAtX;
               point_color := lowColor chartColors;
               point_value := low dataPoint |} ]
     else []) in
  draw this [HoverCircles points].

(** [array.indexOf(object)], which compares references, for the object
    fetched at [fetchedAt] from an array of distinct objects: it is found,
    at that position, exactly when [array] is the array it was fetched
    from, and otherwise the answer is [-1]. *)
Definition indexOf (sameArray : bool) (fetchedAt : Z) : Z :=
  if sameArray then fetchedAt else (-1)%Z.

(** The tooltip delegate that [render] registers for the view model
    [rendered], at the position [xIndex] that [getXFromCoordinate] recovered
    from the pointer. The point is looked up in [rendered.data], the line
    and the circles are drawn at [this.viewModel.data.indexOf(dataPoint)].
    [registered] tells whether [this.viewModel] still is the object
    [rendered]: every update assigns a newly built view model, whose data
    points are new objects. *)
Definition tooltipInfoDelegate (this : DifferenceAreaChart)
  (rendered : DifferenceAreaChartViewModel) (registered : bool)
  (xIndex : number)
  : Result (DifferenceAreaChart * option TooltipInfo) :=
  let dataPoint := getClosestDataPoint xIndex (data rendered) in
  match dataPoint with
  | Some point =>
      current ← prop "this.viewModel.data" (viewModel this);
      let this := drawHoverLine this point
                    (indexOf registered (Math_round xIndex)) in
      let this := drawHoverLineDataPoints this (colors (settings current))
                    point (indexOf registered (Math_round xIndex)) in
      Ok (this, Some (tooltipInfo point))
  | None => Ok (this, None)
  end.

Definition onMouseMoveOutDelegate (this : DifferenceAreaChart)
  : DifferenceAreaChart :=
  draw this [HideHoverLine; RemoveHoverCircles].

(** ** Vocabulary of the statements *)

(** No value column of any series group carries the role. *)
Definition noColumnCarries (dataViewCategorical : DataViewCategorical)
  (roleName : string) : Prop :=
  ∀ group column,
    group ∈ groupedValues dataViewCategorical →
    column ∈ group_values group →
    carriesRole roleName column = false.

(** Some value column of some series group carries the role. *)
Definition someColumnCarries (dataViewCategorical : DataViewCategorical)
  (roleName : string) : Prop :=
  ∃ group column,
    group ∈ groupedValues dataViewCategorical ∧
    column ∈ group_values group ∧
    carriesRole roleName column = true.

(** The role index lookup fails: [getMeasureIndexOfRole] is negative. *)
Definition roleLookupFails (dataViewCategorical : DataViewCategorical)
  (roleName : string) : Prop :=
  (getMeasureIndexOfRole (groupedValues dataViewCategorical) roleName < 0)%Z.

(** Sample datasets. *)
Module Samples.
Definition measure (roleName : string) (cells : list Z) : DataViewValueColumn :=
  {| column_source :=
       Some {| displayName := roleName;
               roles := Some {[ roleName := true ]};
               format := None;
               type := Some TypeNumeric |};
     column_values := Some ((λ z, PNumber (inject_Z z)) <$> cells) |}.

Definition category (labels : list string) : DataViewCategoryColumn :=
  {| category_source := None;
     category_values := labels;
     category_identity := None |}.

Definition dataViewOf (dataViewCategorical : DataViewCategorical) : DataView :=
  {| metadata := Some {| columns := []; objects := None |};
     categorical := Some dataViewCategorical |}.

(** Categories A, B, C with Low = 1, 2, 1 and High = 3, 3, 4. *)
Definition oneSeries : DataViewCategorical :=
  {| categories := Some [category ["A"; "B"; "C"]];
     values := Some {| grouped :=
       [ {| group_values := [measure "Low" [1; 2; 1]%Z;
                             measure "High" [3; 3; 4]%Z] |} ] |} |}.

(** The same categories with no High measure. *)
Definition noHigh : DataViewCategorical :=
  {| categories := Some [category ["A"; "B"; "C"]];
     values := Some {| grouped :=
       [ {| group_values := [measure "Low" [1; 2; 1]%Z] |} ] |} |}.

(** Two series groups over one category column. *)
Definition twoSeries : DataViewCategorical :=
  {| categories := Some [category ["A"; "B"]];
     values := Some {| grouped :=
       [ {| group_values := [measure "Low" [1; 2]%Z; measure "High" [3; 3]%Z] |};
         {| group_values := [measure "Low" [2; 2]%Z; measure "High" [5; 4]%Z] |} ] |} |}.

(** Two series groups over two category columns of two labels each. *)
Definition twoSeriesTwoColumns : DataViewCategorical :=
  {| categories := Some [category ["A"; "B"]; category ["A"; "B"]];
     values := Some {| grouped :=
       [ {| group_values := [measure "Low" [1; 2]%Z; measure "High" [3; 3]%Z] |};
         {| group_values := [measure "Low" [2; 2]%Z; measure "High" [5; 4]%Z] |} ] |} |}.

(** As above, the second group holding its High column only. *)
Definition secondGroupWithoutLow : DataViewCategorical :=
  {| categories := Some [category ["A"; "B"]; category ["A"; "B"]];
     values := Some {| grouped :=
       [ {| group_values := [measure "High" [3; 3]%Z; measure "Low" [1; 2]%Z] |};
         {| group_values := [measure "High" [5; 4]%Z] |} ] |} |}.

(** Two series groups, the second holding its Low column only. *)
Definition secondGroupWithoutHigh : DataViewCategorical :=
  {| categories := Some [category ["A"; "B"]; category ["A"; "B"]];
     values := Some {| grouped :=
       [ {| group_values := [measure "Low" [1; 2]%Z; measure "High" [3; 3]%Z] |};
         {| group_values := [measure "Low" [2; 2]%Z] |} ] |} |}.

(** A visual initialised in a 200 by 100 viewport. *)
Definition initialized : DifferenceAreaChart :=
  init (constructor "1")
    {| init_viewport := {| viewport_height := 100; viewport_width := 200 |} |}.

(** The one-series dataset with a store that hides the outline and
    paints the low area blue. *)
Definition styled : DataView :=
  {| metadata := Some
       {| columns := [];
          objects := Some
            {[ "outline" := {[ "show" := PropBool false ]};
               "colors" := {[ "lowColor" := PropFill "Blue" ]} ]} |};
     categorical := Some oneSeries |}.

(** The update that hands [styled] to the visual, and what it leaves. *)
Definition updateOptions : VisualUpdateOptions :=
  {| dataViews := Some [Some styled];
     viewport := {| viewport_height := 100; viewport_width := 200 |} |}.

Definition updated : DifferenceAreaChart :=
  match update initialized updateOptions with
  | Ok this => this
  | Throw _ => initialized
  end.

Definition built : DifferenceAreaChartViewModel :=
  match viewModel updated with
  | Some viewModel => viewModel
  | None => {| settings := getDefaultChartSettings; data := []; selector := SelectorNull |}
  end.

(** A geometry whose viewport leaves no height once the margins are taken. *)
Definition tooLow : DifferenceAreaChartGeometry :=
  Geometry.update (Geometry.new defaultMargin)
    {| viewport_height := 20; viewport_width := 200 |}.
End Samples.

(** The number of categories of a dataset: the labels of its first
    category column. *)
Definition categoryCount (dataView : DataView) : nat :=
  match ((categorical dataView ≫= categories) ≫= (λ columns, columns !! 0%nat)) with
  | Some first => length (category_values first)
  | None => 0%nat
  end.

(** The view model is built, holds one data point per category, and the
    point at position [i] has [categoryIndex] [i]. *)
Definition dataPointsMatchCategories (dataView : DataView) : Prop :=
  ∃ viewModel,
    convertToViewModel (Some dataView) = Ok (Some viewModel)
    ∧ length (data viewModel) = categoryCount dataView
    ∧ ∀ i dataPoint,
        data viewModel !! i = Some dataPoint → categoryIndex dataPoint = i.

(** Both the Low and the High role are carried by some value column. *)
Definition rolesPresent (dataView : DataView) : Prop :=
  ∃ dataViewCategorical,
    categorical dataView = Some dataViewCategorical
    ∧ someColumnCarries dataViewCategorical "Low"
    ∧ someColumnCarries dataViewCategorical "High".

(** The value columns form one series group. *)
Definition singleSeries (dataView : DataView) : Prop :=
  ∃ dataViewCategorical,
    categorical dataView = Some dataViewCategorical
    ∧ length (groupedValues dataViewCategorical) = 1%nat.

(** What enumeration answers for a visual [this'] whose view model [built]
    came out of an update with [options]. *)
Definition enumerationRoundTrip (options : VisualUpdateOptions)
  (this' : DifferenceAreaChart) (built : DifferenceAreaChartViewModel) : Prop :=
  (∃ views resolved,
     dataViews options = Some views
     ∧ parseSettings (mjoin (views !! 0%nat)) = Some resolved
     ∧ settings built = resolved
     ∧ enumerateObjectInstances this' {| enumerate_objectName := "outline" |}
       = Some [ {| instance_selector := None;
                   instance_objectName := "outline";
                   properties :=
                     {[ "show" := PropBool (showOutline (outline resolved));
                        "size" := PropNumber (size (outline resolved)) ]} |} ]
     ∧ enumerateObjectInstances this' {| enumerate_objectName := "colors" |}
       = Some [ {| instance_selector := None;
                   instance_objectName := "colors";
                   properties :=
                     {[ "lowColor" := PropText (lowColor (colors resolved));
                        "highColor" := PropText (highColor (colors resolved)) ]} |} ])
  ∧ (∀ name, name ≠ "outline" → name ≠ "colors" →
       enumerateObjectInstances this' {| enumerate_objectName := name |} = None)
  ∧ (∀ other name, viewModel other = None →
       enumerateObjectInstances other {| enumerate_objectName := name |} = None).

(** What the geometry promises: the margin-adjusted viewport, validity as
    strict positivity of both its dimensions, and no drawing by [render]
    when it is not valid. *)
Definition geometryContract (geometry : DifferenceAreaChartGeometry) : Prop :=
  let stored := viewportNoMargins geometry in
  let margins := margin geometry in
  let adjusted := Geometry.getViewport geometry in
  viewport_width adjusted
    = (viewport_width stored - margin_left margins - margin_right margins)%Q
  ∧ viewport_height adjusted
    = (viewport_height stored - margin_top margins - margin_bottom margins)%Q
  ∧ (Geometry.isValid geometry = true ↔
       (0 < viewport_width adjusted)%Q ∧ (0 < viewport_height adjusted)%Q)
  ∧ (Geometry.isValid geometry = false →
       ∀ this model, render this model geometry = this).

(** The hover lookup at position [xIndex] over the data points [points]:
    the rounding, the point selected and what the delegate registered for
    these points then draws and returns, and the suppression out of range. *)
Definition hoverContract (xIndex : number)
  (points : list DifferenceAreaChartDataPoint) : Prop :=
  let index := Math_round xIndex in
  ((inject_Z index - (1 # 2) <= xIndex)%Q ∧ (xIndex < inject_Z index + (1 # 2))%Q)
  ∧ ((0 ≤ index < Z.of_nat (length points))%Z →
       ∃ point,
         points !! Z.to_nat index = Some point
         ∧ getClosestDataPoint xIndex points = Some point
         ∧ (∀ this rendered,
              data rendered = points → viewModel this = Some rendered →
              tooltipInfoDelegate this rendered true xIndex
              = Ok (drawHoverLineDataPoints
                      (drawHoverLine this point index)
                      (colors (settings rendered)) point index,
                    Some (tooltipInfo point)))
         ∧ (∀ this rendered current,
              data rendered = points → viewModel this = Some current →
              tooltipInfoDelegate this rendered false xIndex
              = Ok (drawHoverLineDataPoints
                      (drawHoverLine this point (-1))
                      (colors (settings current)) point (-1),
                    Some (tooltipInfo point))))
  ∧ (¬ (0 ≤ index < Z.of_nat (length points))%Z →
       getClosestDataPoint xIndex points = None
       ∧ ∀ this rendered registered,
           data rendered = points →
           tooltipInfoDelegate this rendered registered xIndex
           = Ok (this, None)).

(** The property store of a data view, empty when it has none. *)
Definition storeOf (dataView : option DataView)
  : gmap string (gmap string DataViewPropertyValue) :=
  default ∅ (getObjectsFromDataView dataView).

(** The value the store holds for a property, at the property's type. *)
Definition storedBoolean objects propertyId : option bool :=
  match DataViewObjects.stored objects propertyId with
  | Some (PropBool b) => Some b
  | _ => None
  end.

Definition storedNumber objects propertyId : option number :=
  match DataViewObjects.stored objects propertyId with
  | Some (PropNumber n) => Some n
  | _ => None
  end.

Definition storedColor objects propertyId : option string :=
  match DataViewObjects.stored objects propertyId with
  | Some (PropFill solidColor) => Some solidColor
  | _ => None
  end.

(** The four properties [parseSettings] reads. *)
Definition recognized : list DataViewObjectPropertyIdentifier :=
  [ Properties.outline_show; Properties.outline_size;
    Properties.colors_highColor; Properties.colors_lowColor ].

(** [objects[objectName][propertyName] = value] *)
Definition setProperty (objects : gmap string (gmap string DataViewPropertyValue))
  (propertyId : DataViewObjectPropertyIdentifier) (value : DataViewPropertyValue)
  : gmap string (gmap string DataViewPropertyValue) :=
  <[objectName propertyId :=
      <[propertyName propertyId := value]>
        (default ∅ (objects !! objectName propertyId))]> objects.

(** The data view with the property store of its metadata replaced. *)
Definition withObjects (dataView : DataView)
  (store : option (gmap string (gmap string DataViewPropertyValue))) : DataView :=
  {| metadata :=
       (λ meta, {| columns := columns meta; objects := store |}) <$> metadata dataView;
     categorical := categorical dataView |}.

(** Settings resolution for a data view: the defaults, the overlay of each
    recognized property, and the independence from every other property. *)
Definition settingsResolution (dataView : option DataView) : Prop :=
  getDefaultChartSettings
    = {| outline := {| showOutline := true; size := 2 |};
         colors := {| highColor := "Green"; lowColor := "Red" |} |}
  ∧ (∃ resolved,
       parseSettings dataView = Some resolved
       ∧ showOutline (outline resolved)
         = default true (storedBoolean (storeOf dataView) Properties.outline_show)
       ∧ size (outline resolved)
         = default 2%Q (storedNumber (storeOf dataView) Properties.outline_size)
       ∧ highColor (colors resolved)
         = default "Green" (storedColor (storeOf dataView) Properties.colors_highColor)
       ∧ lowColor (colors resolved)
         = default "Red" (storedColor (storeOf dataView) Properties.colors_lowColor))
  ∧ (∀ other,
       (∀ propertyId, propertyId ∈ recognized →
          DataViewObjects.stored (storeOf other) propertyId
          = DataViewObjects.stored (storeOf dataView) propertyId) →
       parseSettings other = parseSettings dataView)
  ∧ (∀ dv store propertyId value,
       dataView = Some (withObjects dv (Some store)) →
       propertyId ∉ recognized →
       parseSettings (Some (withObjects dv (Some (setProperty store propertyId value))))
       = parseSettings dataView).

(** ** Vocabulary of the further properties *)

(** A data point as the loops emit it: its label is the one the first
    category column holds at its [categoryIndex], and its low and high
    fields are the cells of one series group at that index. *)
Definition emittedFrom (dataViewCategorical : DataViewCategorical)
  (dataPoint : DifferenceAreaChartDataPoint) : Prop :=
  ∃ columns first group,
    categories dataViewCategorical = Some columns
    ∧ columns !! 0%nat = Some first
    ∧ group ∈ groupedValues dataViewCategorical
    ∧ categoryValue dataPoint
      = category_values first !! categoryIndex dataPoint
    ∧ low dataPoint
      = measureValue
          (at_index (group_values group)
             (getMeasureIndexOfRole (groupedValues dataViewCategorical) "Low"))
          (categoryIndex dataPoint)
    ∧ high dataPoint
      = measureValue
          (at_index (group_values group)
             (getMeasureIndexOfRole (groupedValues dataViewCategorical) "High"))
          (categoryIndex dataPoint).

(** The tooltip of a data point: the point's label, then its low and its
    high value, each under the formatter made from its own column. *)
Definition tooltipOfPoint (dataPoint : DifferenceAreaChartDataPoint) : Prop :=
  ∃ lowColumn lowSource highMeasure,
    column_source lowColumn = Some lowSource
    ∧ tooltip_categoryValue (tooltipInfo dataPoint) = categoryValue dataPoint
    ∧ tooltip_seriesData (tooltipInfo dataPoint)
      = [ {| item_value :=
               {| formatter :=
                    {| vf_format := format lowSource;
                       allowFormatBeautification := true;
                       columnType := type lowSource |};
                  formatted := low dataPoint |};
             item_metadata := Some lowColumn |};
          {| item_value :=
               {| formatter :=
                    {| vf_format := (highMeasure ≫= column_source) ≫= format;
                       allowFormatBeautification := true;
                       columnType := (highMeasure ≫= column_source) ≫= type |};
                  formatted := high dataPoint |};
             item_metadata := highMeasure |} ].

(** Every series group holds, at the Low index, a column with a source. *)
Definition lowColumnsPresent (dataViewCategorical : DataViewCategorical) : Prop :=
  ∀ group,
    group ∈ groupedValues dataViewCategorical →
    ∃ lowColumn lowSource,
      at_index (group_values group)
        (getMeasureIndexOfRole (groupedValues dataViewCategorical) "Low")
      = Some lowColumn
      ∧ column_source lowColumn = Some lowSource.

(** Both role lookups succeed. *)
Definition rolesFound (dataViewCategorical : DataViewCategorical) : Prop :=
  (0 ≤ getMeasureIndexOfRole (groupedValues dataViewCategorical) "Low")%Z
  ∧ (0 ≤ getMeasureIndexOfRole (groupedValues dataViewCategorical) "High")%Z.

(** The category indices the loops run through: for the k-th series group,
    the positions of the k-th category column. *)
Definition indicesPerGroup (columns : list DataViewCategoryColumn)
  (groups : nat) : list nat :=
  concat ((λ column, seq 0 (length (category_values column)))
            <$> take groups columns).

(** What [convertToViewModel] yields besides the settings. *)
Definition builtData (result : Result (option DifferenceAreaChartViewModel))
  : Result (option (list DifferenceAreaChartDataPoint * Selector)) :=
  match result with
  | Ok (Some viewModel) => Ok (Some (data viewModel, selector viewModel))
  | Ok None => Ok None
  | Throw e => Throw e
  end.

(** The point of a one-series dataset at a position: the label of the
    first category column and the cells of the Low and the High column of
    the group there. *)
Definition pointOfCategory (dataViewCategorical : DataViewCategorical)
  (first : DataViewCategoryColumn) (group : DataViewValueColumnGroup)
  (i : nat) (dataPoint : DifferenceAreaChartDataPoint) : Prop :=
  categoryIndex dataPoint = i
  ∧ categoryValue dataPoint = category_values first !! i
  ∧ low dataPoint
    = measureValue
        (at_index (group_values group)
           (getMeasureIndexOfRole (groupedValues dataViewCategorical) "Low")) i
  ∧ high dataPoint
    = measureValue
        (at_index (group_values group)
           (getMeasureIndexOfRole (groupedValues dataViewCategorical) "High")) i.

(** ** The plot area (renderPlotArea, DifferenceAreaChartUtility.IdAndSelector) *)

Module IdAndSelector.
Definition id (idValue : string) : string := idValue.

Definition selector (idValue : string) : string := "#" +:+ idValue.

End IdAndSelector.








(** The series values hold no usable Low column: none at the Low index,
    or one without a source. *)
Definition lowColumnMissing (seriesValues : list DataViewValueColumn)
  (lowMeasureIndex : Z) : Prop :=
  at_index seriesValues lowMeasureIndex = None
  ∨ ∃ lowColumn,
      at_index seriesValues lowMeasureIndex = Some lowColumn
      ∧ column_source lowColumn = None.

(** ** Columns and cells, as the dataset has them *)

(** [position] is where the first column carrying the role sits. *)
Definition firstCarrying (roleName : string)
  (columns : list DataViewValueColumn) (position : nat) : Prop :=
  (∃ column, columns !! position = Some column
             ∧ carriesRole roleName column = true)
  ∧ ∀ earlier column,
      (earlier < position)%nat → columns !! earlier = Some column →
      carriesRole roleName column = false.

(** The value a measure column gives at a category position: its cell
    there, [undefined] past the end of its cells, and 0 when the column or
    its cell array is absent. *)
Inductive cellOf : option DataViewValueColumn → nat → PrimitiveValue → Prop :=
| cell_read column cells i cell :
    column_values column = Some cells → cells !! i = Some cell →
    cellOf (Some column) i cell
| cell_past_end column cells i :
    column_values column = Some cells → cells !! i = None →
    cellOf (Some column) i PUndefined
| cell_without_array column i :
    column_values column = None → cellOf (Some column) i (PNumber 0)
| cell_without_column i :
    cellOf None i (PNumber 0).

(** A data point read off the dataset: the label of the first category
    column at its index, and the cells at that index of the columns that
    one series group holds where the first group has its first Low and its
    first High column. *)
Definition pointFromColumns (dataViewCategorical : DataViewCategorical)
  (dataPoint : DifferenceAreaChartDataPoint) : Prop :=
  ∃ columns first firstGroup group lowPosition highPosition,
    categories dataViewCategorical = Some columns
    ∧ columns !! 0%nat = Some first
    ∧ groupedValues dataViewCategorical !! 0%nat = Some firstGroup
    ∧ firstCarrying "Low" (group_values firstGroup) lowPosition
    ∧ firstCarrying "High" (group_values firstGroup) highPosition
    ∧ group ∈ groupedValues dataViewCategorical
    ∧ categoryValue dataPoint
      = category_values first !! categoryIndex dataPoint
    ∧ cellOf (group_values group !! lowPosition) (categoryIndex dataPoint)
        (low dataPoint)
    ∧ cellOf (group_values group !! highPosition) (categoryIndex dataPoint)
        (high dataPoint).

(** The tooltip of a data point read off the dataset: for the series
    group whose cells the point holds, the point's label, then the low
    value under the formatter of that group's Low column and the high
    value under the formatter of its High column, each tagged with its
    column. *)
Definition tooltipFromColumns (dataViewCategorical : DataViewCategorical)
  (dataPoint : DifferenceAreaChartDataPoint) : Prop :=
  ∃ columns firstGroup group lowPosition highPosition lowColumn lowSource,
    categories dataViewCategorical = Some columns
    ∧ groupedValues dataViewCategorical !! 0%nat = Some firstGroup
    ∧ firstCarrying "Low" (group_values firstGroup) lowPosition
    ∧ firstCarrying "High" (group_values firstGroup) highPosition
    ∧ group ∈ groupedValues dataViewCategorical
    ∧ group_values group !! lowPosition = Some lowColumn
    ∧ column_source lowColumn = Some lowSource
    ∧ cellOf (Some lowColumn) (categoryIndex dataPoint) (low dataPoint)
    ∧ cellOf (group_values group !! highPosition) (categoryIndex dataPoint)
        (high dataPoint)
    ∧ tooltipInfo dataPoint
      = {| tooltip_formatString :=
             {| objectName := "general"; propertyName := "formatString" |};
           tooltip_categoryValue := categoryValue dataPoint;
           tooltip_categories := [columns !! 0%nat];
           tooltip_seriesData :=
             [ {| item_value :=
                    {| formatter :=
                         {| vf_format := format lowSource;
                            allowFormatBeautification := true;
                            columnType := type lowSource |};
                       formatted := low dataPoint |};
                  item_metadata := Some lowColumn |};
               {| item_value :=
                    {| formatter :=
                         {| vf_format :=
                              ((group_values group !! highPosition)
                                 ≫= column_source) ≫= format;
                            allowFormatBeautification := true;
                            columnType :=
                              ((group_values group !! highPosition)
                                 ≫= column_source) ≫= type |};
                       formatted := high dataPoint |};
                  item_metadata := group_values group !! highPosition |} ] |}.

(** The data of a one-series dataset, column by column. *)
Definition dataFromColumns (dataPoints : list DifferenceAreaChartDataPoint)
  (labels : list string) (lowCells highCells : list PrimitiveValue) : Prop :=
  categoryIndex <$> dataPoints = seq 0 (length labels)
  ∧ categoryValue <$> dataPoints = Some <$> labels
  ∧ low <$> dataPoints = lowCells
  ∧ high <$> dataPoints = highCells.

(** * Properties *)

(** ** The error monad *)

Lemma bind_Ok {A B : Type} (a : A) (f : A → Result B) : (Ok a ≫= f) = f a.
Proof. reflexivity. Qed.

(** ** Role lookup *)

Lemma indexOfRole_not_carried columns roleName i :
  (∀ column, column ∈ columns → carriesRole roleName column = false) →
  indexOfRole columns roleName i = (-1)%Z.
Proof.
  revert i. induction columns as [|column rest IH]; intros i Hnone; simpl.
  - reflexivity.
  - rewrite (Hnone column) by apply list_elem_of_here.
    apply IH. intros c Hc. apply Hnone. by apply list_elem_of_further.
Qed.

Lemma indexOfRole_carried columns roleName i column :
  column ∈ columns → carriesRole roleName column = true → (0 ≤ i)%Z →
  (0 ≤ indexOfRole columns roleName i)%Z.
Proof.
  intros Hin Hrole. revert i.
  induction columns as [|head rest IH]; intros i Hi; simpl.
  - by apply elem_of_nil in Hin.
  - destruct (carriesRole roleName head) eqn:Hhead; [done|].
    apply elem_of_cons in Hin as [-> | Hin]; [congruence|].
    apply IH; [done | lia].
Qed.

Lemma indexOfRole_found columns roleName i :
  (0 ≤ i)%Z → (0 ≤ indexOfRole columns roleName i)%Z →
  ∃ column,
    columns !! Z.to_nat (indexOfRole columns roleName i - i) = Some column
    ∧ carriesRole roleName column = true.
Proof.
  revert i. induction columns as [|c rest IH]; intros i Hi Hfound; simpl in *.
  - lia.
  - destruct (carriesRole roleName c) eqn:Hc.
    + exists c. by rewrite Z.sub_diag.
    + destruct (IH (i + 1)%Z) as (column & Hlook & Hrole); [lia | done |].
      exists column. split; [|done].
      assert (i + 1 ≤ indexOfRole rest roleName (i + 1))%Z as Hle.
      { clear -Hfound Hi. revert i Hi Hfound.
        induction rest as [|c' rest' IH']; intros i Hi Hfound; simpl in *.
        - lia.
        - destruct (carriesRole roleName c'); [lia|].
          specialize (IH' (i + 1)%Z). lia. }
      replace (Z.to_nat (indexOfRole rest roleName (i + 1) - i))
        with (S (Z.to_nat (indexOfRole rest roleName (i + 1) - (i + 1))))
        by lia.
      done.
Qed.

Lemma noColumnCarries_lookup_fails dataViewCategorical roleName :
  noColumnCarries dataViewCategorical roleName →
  roleLookupFails dataViewCategorical roleName.
Proof.
  unfold noColumnCarries, roleLookupFails, getMeasureIndexOfRole.
  intros Hnone.
  destruct (groupedValues dataViewCategorical) as [|firstGroup rest]; [lia|].
  rewrite indexOfRole_not_carried; [lia|].
  intros column Hin. apply (Hnone firstGroup); [apply list_elem_of_here | done].
Qed.

Lemma parseToDataPoints_lookup_fails dataViewCategorical :
  roleLookupFails dataViewCategorical "Low"
  ∨ roleLookupFails dataViewCategorical "High" →
  parseToDataPoints dataViewCategorical = Ok [].
Proof.
  unfold roleLookupFails, parseToDataPoints. intros Hfails.
  destruct (0 <=? getMeasureIndexOfRole _ "Low")%Z eqn:Hlow;
    destruct (0 <=? getMeasureIndexOfRole _ "High")%Z eqn:Hhigh;
    simpl; try reflexivity.
  apply Z.leb_le in Hlow, Hhigh. lia.
Qed.

(** C3. When no value column carries the role "Low", or none carries the
    role "High" -- more generally, when the role index lookup fails for
    either role -- [parseToDataPoints] returns the empty data sequence,
    whatever else the dataset holds, and raises no error. *)
Theorem parseToDataPoints_role_absent
  (dataViewCategorical : DataViewCategorical) (roleName : string) :
  roleName = "Low" ∨ roleName = "High" →
  noColumnCarries dataViewCategorical roleName
  ∨ roleLookupFails dataViewCategorical roleName →
  parseToDataPoints dataViewCategorical = Ok [].
Proof.
  intros Hrole Habsent.
  assert (roleLookupFails dataViewCategorical roleName) as Hfails.
  { destruct Habsent as [Hnone | Hfails];
      [by apply noColumnCarries_lookup_fails | done]. }
  apply parseToDataPoints_lookup_fails.
  destruct Hrole as [-> | ->]; [by left | by right].
Qed.

(** ** The data sequence *)

Lemma categoryLoop_ok body remaining start dataPoints :
  (∀ i, (start ≤ i < start + remaining)%nat →
        ∃ dataPoint, body i = Ok dataPoint ∧ categoryIndex dataPoint = i) →
  ∃ added,
    categoryLoop body remaining start dataPoints = Ok (dataPoints ++ added)
    ∧ length added = remaining
    ∧ ∀ j dataPoint,
        added !! j = Some dataPoint → categoryIndex dataPoint = (start + j)%nat.
Proof.
  revert start dataPoints.
  induction remaining as [|remaining IH]; intros start dataPoints Hbody; simpl.
  - exists []. rewrite app_nil_r. repeat split. intros j dp Hj.
    by rewrite lookup_nil in Hj.
  - destruct (Hbody start) as (first & Hfirst & Hindex); [lia|].
    rewrite Hfirst, bind_Ok.
    destruct (IH (S start) (dataPoints ++ [first])) as (added & Hloop & Hlen & Hidx).
    { intros i Hi. apply Hbody. lia. }
    exists (first :: added). rewrite Hloop, <- app_assoc. simpl.
    repeat split; [by rewrite Hlen|].
    intros [|j] dp Hj; simpl in Hj.
    + injection Hj as <-. lia.
    + apply Hidx in Hj. lia.
Qed.

Lemma parseDataPoint_ok dataViewCategorical firstCategory seriesValues
  lowMeasureIndex highMeasureIndex i columns lowColumn lowSource :
  categories dataViewCategorical = Some columns →
  at_index seriesValues lowMeasureIndex = Some lowColumn →
  column_source lowColumn = Some lowSource →
  ∃ dataPoint,
    parseDataPoint dataViewCategorical firstCategory seriesValues
      lowMeasureIndex highMeasureIndex i = Ok dataPoint
    ∧ categoryIndex dataPoint = i
    ∧ categoryValue dataPoint = category_values firstCategory !! i
    ∧ low dataPoint = measureValue (Some lowColumn) i
    ∧ high dataPoint = measureValue (at_index seriesValues highMeasureIndex) i.
Proof.
  intros Hcolumns Hlow Hsource. unfold parseDataPoint.
  rewrite Hcolumns, Hlow. simpl. rewrite Hsource. simpl.
  eexists. repeat split.
Qed.

Lemma getMeasureIndexOfRole_single group roleName :
  (0 ≤ getMeasureIndexOfRole [group] roleName)%Z →
  ∃ column,
    at_index (group_values group) (getMeasureIndexOfRole [group] roleName)
      = Some column
    ∧ carriesRole roleName column = true.
Proof.
  simpl. intros Hfound.
  destruct (indexOfRole_found (group_values group) roleName 0)
    as (column & Hlook & Hrole); [lia | done |].
  exists column. split; [|done].
  unfold at_index. rewrite Z.sub_0_r in Hlook.
  by destruct (Z.ltb_spec (indexOfRole (group_values group) roleName 0) 0); [lia|].
Qed.

Lemma someColumnCarries_single dataViewCategorical group roleName :
  groupedValues dataViewCategorical = [group] →
  someColumnCarries dataViewCategorical roleName →
  (0 ≤ getMeasureIndexOfRole [group] roleName)%Z.
Proof.
  intros Hgroups (g & column & Hg & Hcolumn & Hrole).
  rewrite Hgroups in Hg. apply list_elem_of_singleton in Hg as ->.
  simpl. by eapply indexOfRole_carried.
Qed.

Lemma carriesRole_source roleName column :
  carriesRole roleName column = true → is_Some (column_source column).
Proof. unfold carriesRole. destruct (column_source column); [eauto | done]. Qed.

Lemma isDataViewValid_parts (dataView : option DataView) :
  isDataViewValid dataView = true ↔
  ∃ dv meta dataViewCategorical columns first valueColumns,
    dataView = Some dv
    ∧ metadata dv = Some meta
    ∧ categorical dv = Some dataViewCategorical
    ∧ categories dataViewCategorical = Some columns
    ∧ columns !! 0%nat = Some first
    ∧ values dataViewCategorical = Some valueColumns.
Proof.
  unfold isDataViewValid. split.
  - destruct dataView as [dv|]; simpl; [|done].
    destruct (categorical dv) as [c|] eqn:Hc; simpl; [|done].
    destruct (categories c) as [columns|] eqn:Hcolumns; simpl; [|done].
    destruct (metadata dv) as [meta|] eqn:Hmeta; simpl; [|done].
    destruct (columns !! 0%nat) as [first|] eqn:Hfirst; simpl; [|done].
    destruct (values c) as [valueColumns|] eqn:Hvalues; simpl; [|done].
    intros _. exists dv, meta, c, columns, first, valueColumns.
    repeat split; done.
  - intros (dv & meta & c & columns & first & valueColumns
            & -> & Hmeta & Hc & Hcolumns & Hfirst & Hvalues).
    simpl. rewrite Hc. simpl. rewrite Hcolumns, Hmeta. simpl.
    by rewrite Hfirst, Hvalues.
Qed.

Lemma parseSettings_defined (dataView : option DataView) :
  is_Some (parseSettings dataView).
Proof.
  unfold parseSettings. destruct (getObjectsFromDataView dataView); eauto.
Qed.

Lemma parseToDataPoints_single_series dataViewCategorical group columns first :
  groupedValues dataViewCategorical = [group] →
  categories dataViewCategorical = Some columns →
  columns !! 0%nat = Some first →
  someColumnCarries dataViewCategorical "Low" →
  someColumnCarries dataViewCategorical "High" →
  ∃ dataPoints,
    parseToDataPoints dataViewCategorical = Ok dataPoints
    ∧ length dataPoints = length (category_values first)
    ∧ ∀ i dataPoint,
        dataPoints !! i = Some dataPoint → categoryIndex dataPoint = i.
Proof.
  intros Hgroups Hcolumns Hfirst Hlow Hhigh.
  pose proof (someColumnCarries_single _ _ _ Hgroups Hlow) as Hlow0.
  pose proof (someColumnCarries_single _ _ _ Hgroups Hhigh) as Hhigh0.
  destruct (getMeasureIndexOfRole_single _ _ Hlow0) as (lowColumn & Hat & Hrole).
  destruct (carriesRole_source _ _ Hrole) as [lowSource Hsource].
  unfold parseToDataPoints. rewrite Hgroups.
  apply Z.leb_le in Hlow0 as Hlowb. apply Z.leb_le in Hhigh0 as Hhighb.
  rewrite Hlowb, Hhighb. simpl andb. cbv iota.
  unfold seriesLoop. rewrite Hcolumns. simpl prop. rewrite bind_Ok.
  rewrite Hfirst. simpl prop. rewrite bind_Ok.
  edestruct (categoryLoop_ok
    (parseDataPoint dataViewCategorical (firstCategoryOrBlank dataViewCategorical)
       (group_values group) (getMeasureIndexOfRole [group] "Low")
       (getMeasureIndexOfRole [group] "High"))
    (length (category_values first)) 0%nat [])
    as (added & Hloop & Hlen & Hidx).
  { intros i _.
    destruct (parseDataPoint_ok dataViewCategorical
                (firstCategoryOrBlank dataViewCategorical) (group_values group)
                (getMeasureIndexOfRole [group] "Low")
                (getMeasureIndexOfRole [group] "High")
                i columns lowColumn lowSource)
      as (dataPoint & Hpoint & Hindex & _); eauto. }
  rewrite Hloop, bind_Ok. simpl app.
  exists added. repeat split; [done|].
  intros i dataPoint Hi. by apply Hidx in Hi.
Qed.

(** C1 (amended). For every structurally valid dataset whose value columns
    form one series group and in which both the Low and the High role are
    present, the view model is built, its data sequence has exactly as many
    points as the first category column has labels, and the point at
    position [i] has [categoryIndex] [i]. *)
Theorem convertToViewModel_single_series_points (dataView : DataView) :
  isDataViewValid (Some dataView) = true →
  rolesPresent dataView →
  singleSeries dataView →
  dataPointsMatchCategories dataView.
Proof.
  intros Hvalid (c & Hc & Hlow & Hhigh) (c' & Hc' & Hsingle).
  rewrite Hc in Hc'. injection Hc' as <-.
  pose proof Hvalid as Hparts.
  apply isDataViewValid_parts in Hparts
    as (dv & meta & c' & columns & first & valueColumns
        & [= <-] & Hmeta & Hc' & Hcolumns & Hfirst & Hvalues).
  rewrite Hc in Hc'. injection Hc' as <-.
  destruct (groupedValues c) as [|group [|]] eqn:Hgroups; try discriminate.
  destruct (parseToDataPoints_single_series c group columns first)
    as (dataPoints & Hparse & Hlen & Hidx); try done.
  destruct (parseSettings_defined (Some dataView)) as [resolved Hsettings].
  unfold dataPointsMatchCategories, convertToViewModel.
  rewrite Hvalid, Hsettings. simpl negb. cbv iota.
  rewrite Hc. simpl prop. rewrite bind_Ok, Hcolumns. simpl prop.
  rewrite bind_Ok, Hfirst. simpl prop. rewrite bind_Ok, Hparse, bind_Ok.
  eexists. split; [reflexivity|]. simpl.
  split; [|done].
  unfold categoryCount. rewrite Hc. simpl. rewrite Hcolumns. simpl.
  by rewrite Hfirst.
Qed.

Lemma convertToViewModel_single_series_points_witness :
  dataPointsMatchCategories (Samples.dataViewOf Samples.oneSeries).
Proof.
  apply convertToViewModel_single_series_points.
  - vm_compute. reflexivity.
  - exists Samples.oneSeries. split; [reflexivity|]. split.
    + exists {| group_values := [Samples.measure "Low" [1; 2; 1]%Z;
                                 Samples.measure "High" [3; 3; 4]%Z] |},
             (Samples.measure "Low" [1; 2; 1]%Z).
      split; [apply list_elem_of_here|].
      split; [apply list_elem_of_here | vm_compute; reflexivity].
    + exists {| group_values := [Samples.measure "Low" [1; 2; 1]%Z;
                                 Samples.measure "High" [3; 3; 4]%Z] |},
             (Samples.measure "High" [3; 3; 4]%Z).
      split; [apply list_elem_of_here|].
      split; [apply list_elem_of_further, list_elem_of_here
             | vm_compute; reflexivity].
  - exists Samples.oneSeries. split; reflexivity.
Defined.

(** C1, as stated, fails: a structurally valid dataset with two categories
    and both roles present, whose values form two series groups over two
    category columns, yields four data points, the third of which has
    [categoryIndex] 0. *)
Lemma two_series_points_mismatch :
  isDataViewValid (Some (Samples.dataViewOf Samples.twoSeriesTwoColumns)) = true
  ∧ rolesPresent (Samples.dataViewOf Samples.twoSeriesTwoColumns)
  ∧ categoryCount (Samples.dataViewOf Samples.twoSeriesTwoColumns) = 2%nat
  ∧ ¬ dataPointsMatchCategories (Samples.dataViewOf Samples.twoSeriesTwoColumns).
Proof.
  split; [vm_compute; reflexivity|].
  split.
  { exists Samples.twoSeriesTwoColumns. split; [reflexivity|]. split.
    - exists {| group_values := [Samples.measure "Low" [1; 2]%Z;
                                 Samples.measure "High" [3; 3]%Z] |},
             (Samples.measure "Low" [1; 2]%Z).
      split; [apply list_elem_of_here|].
      split; [apply list_elem_of_here | vm_compute; reflexivity].
    - exists {| group_values := [Samples.measure "Low" [1; 2]%Z;
                                 Samples.measure "High" [3; 3]%Z] |},
             (Samples.measure "High" [3; 3]%Z).
      split; [apply list_elem_of_here|].
      split; [apply list_elem_of_further, list_elem_of_here
             | vm_compute; reflexivity]. }
  split; [reflexivity|].
  intros (viewModel & Hbuilt & Hlength & _).
  assert (match convertToViewModel
                  (Some (Samples.dataViewOf Samples.twoSeriesTwoColumns)) with
          | Ok (Some built) => length (data built)
          | _ => 0%nat
          end = 4%nat) as Hfour by (vm_compute; reflexivity).
  rewrite Hbuilt in Hfour.
  change (categoryCount (Samples.dataViewOf Samples.twoSeriesTwoColumns))
    with 2%nat in Hlength.
  congruence.
Qed.

Lemma parseToDataPoints_role_absent_witness :
  parseToDataPoints Samples.noHigh = Ok [].
Proof.
  apply (parseToDataPoints_role_absent Samples.noHigh "High").
  - right. reflexivity.
  - right. vm_compute. reflexivity.
Defined.

(** ** Structural validity and the absent view model *)

Lemma convertToViewModel_valid (dataView : option DataView) :
  isDataViewValid dataView = true →
  ∃ dv dataViewCategorical resolved first,
    dataView = Some dv
    ∧ categorical dv = Some dataViewCategorical
    ∧ parseSettings dataView = Some resolved
    ∧ ((categories dataViewCategorical) ≫= (λ columns, columns !! 0%nat)) = Some first
    ∧ convertToViewModel dataView =
        (dataPoints ← parseToDataPoints dataViewCategorical;
         Ok (Some {| data := dataPoints;
                     settings := resolved;
                     selector :=
                       match category_identity first with
                       | Some identities => SelectorWithId (identities !! 0%nat)
                       | None => SelectorNull
                       end |})).
Proof.
  intros Hvalid. pose proof Hvalid as Hparts.
  apply isDataViewValid_parts in Hparts
    as (dv & meta & c & columns & first & valueColumns
        & -> & Hmeta & Hc & Hcolumns & Hfirst & Hvalues).
  destruct (parseSettings_defined (Some dv)) as [resolved Hsettings].
  exists dv, c, resolved, first. repeat split; try done.
  - rewrite Hcolumns. simpl. done.
  - unfold convertToViewModel. rewrite Hvalid, Hsettings. simpl negb. cbv iota.
    rewrite Hc. simpl prop. rewrite bind_Ok, Hcolumns. simpl prop.
    rewrite bind_Ok, Hfirst. simpl prop. by rewrite bind_Ok.
Qed.

Lemma convertToViewModel_undefined_iff (dataView : option DataView) :
  convertToViewModel dataView = Ok None ↔ isDataViewValid dataView = false.
Proof.
  destruct (isDataViewValid dataView) eqn:Hvalid.
  - destruct (convertToViewModel_valid dataView Hvalid)
      as (dv & c & resolved & first & -> & Hc & Hsettings & Hfirst & Hbuild).
    rewrite Hbuild.
    destruct (parseToDataPoints c); simpl; split; discriminate.
  - split; [done|]. intros _. unfold convertToViewModel.
    destruct dataView; [|done]. by rewrite Hvalid.
Qed.

Lemma convertToViewModel_settings (dataView : option DataView) viewModel :
  convertToViewModel dataView = Ok (Some viewModel) →
  parseSettings dataView = Some (settings viewModel).
Proof.
  intros Hbuilt.
  destruct (isDataViewValid dataView) eqn:Hvalid.
  - destruct (convertToViewModel_valid dataView Hvalid)
      as (dv & c & resolved & first & -> & Hc & Hsettings & Hfirst & Hbuild).
    rewrite Hbuild in Hbuilt.
    destruct (parseToDataPoints c); simpl in Hbuilt; [|discriminate].
    injection Hbuilt as <-. done.
  - apply convertToViewModel_undefined_iff in Hvalid. congruence.
Qed.

(** C4. The dataset with two series groups over one category column is
    structurally valid, yet [convertToViewModel] neither returns a view
    model nor [undefined]: reading [categories[1].values] raises. *)
Theorem convertToViewModel_two_series_throws :
  isDataViewValid (Some (Samples.dataViewOf Samples.twoSeries)) = true
  ∧ convertToViewModel (Some (Samples.dataViewOf Samples.twoSeries))
    = Throw (TypeError "dataViewCategorical.categories[seriesIndex].values").
Proof. split; vm_compute; reflexivity. Qed.

(** ** Absent measures *)

Lemma parseDataPoint_low_absent dataViewCategorical firstCategory seriesValues
  lowMeasureIndex highMeasureIndex i columns :
  categories dataViewCategorical = Some columns →
  at_index seriesValues lowMeasureIndex = None →
  parseDataPoint dataViewCategorical firstCategory seriesValues
    lowMeasureIndex highMeasureIndex i = Throw (TypeError "lowMeasure.source").
Proof.
  intros Hcolumns Hlow. unfold parseDataPoint. by rewrite Hcolumns, Hlow.
Qed.

Lemma parseDataPoint_high_absent dataViewCategorical firstCategory seriesValues
  lowMeasureIndex highMeasureIndex i columns lowColumn lowSource :
  categories dataViewCategorical = Some columns →
  at_index seriesValues lowMeasureIndex = Some lowColumn →
  column_source lowColumn = Some lowSource →
  at_index seriesValues highMeasureIndex = None
  ∨ (∃ highColumn, at_index seriesValues highMeasureIndex = Some highColumn
                   ∧ column_values highColumn = None) →
  ∃ dataPoint,
    parseDataPoint dataViewCategorical firstCategory seriesValues
      lowMeasureIndex highMeasureIndex i = Ok dataPoint
    ∧ high dataPoint = PNumber 0.
Proof.
  intros Hcolumns Hlow Hsource Hhigh.
  destruct (parseDataPoint_ok dataViewCategorical firstCategory seriesValues
              lowMeasureIndex highMeasureIndex i columns lowColumn lowSource)
    as (dataPoint & Hpoint & _ & _ & _ & Hhighvalue); try done.
  exists dataPoint. split; [done|]. rewrite Hhighvalue.
  destruct Hhigh as [-> | (highColumn & -> & Hcells)]; simpl; [done|].
  by rewrite Hcells.
Qed.

Lemma parseDataPoint_low_cells_absent dataViewCategorical firstCategory
  seriesValues lowMeasureIndex highMeasureIndex i columns lowColumn lowSource :
  categories dataViewCategorical = Some columns →
  at_index seriesValues lowMeasureIndex = Some lowColumn →
  column_source lowColumn = Some lowSource →
  column_values lowColumn = None →
  ∃ dataPoint,
    parseDataPoint dataViewCategorical firstCategory seriesValues
      lowMeasureIndex highMeasureIndex i = Ok dataPoint
    ∧ low dataPoint = PNumber 0.
Proof.
  intros Hcolumns Hlow Hsource Hcells.
  destruct (parseDataPoint_ok dataViewCategorical firstCategory seriesValues
              lowMeasureIndex highMeasureIndex i columns lowColumn lowSource)
    as (dataPoint & Hpoint & _ & _ & Hlowvalue & _); try done.
  exists dataPoint. split; [done|]. rewrite Hlowvalue. simpl. by rewrite Hcells.
Qed.

(** C5. With both role indices found, a series group that lacks the low
    measure column makes point construction raise at
    [lowMeasure.source.format]; the mirrored dataset, whose second group
    lacks the high measure column, yields points with [high] 0. *)
Theorem parseToDataPoints_low_measure_absent_throws :
  (0 ≤ getMeasureIndexOfRole (groupedValues Samples.secondGroupWithoutLow) "Low")%Z
  ∧ (0 ≤ getMeasureIndexOfRole (groupedValues Samples.secondGroupWithoutLow) "High")%Z
  ∧ parseToDataPoints Samples.secondGroupWithoutLow
    = Throw (TypeError "lowMeasure.source")
  ∧ ∃ dataPoints,
      parseToDataPoints Samples.secondGroupWithoutHigh = Ok dataPoints
      ∧ high <$> dataPoints = [PNumber 3; PNumber 3; PNumber 0; PNumber 0].
Proof.
  split; [vm_compute; congruence|].
  split; [vm_compute; congruence|].
  split; [vm_compute; reflexivity|].
  assert (match parseToDataPoints Samples.secondGroupWithoutHigh with
          | Ok dataPoints => high <$> dataPoints
          | Throw _ => []
          end = [PNumber 3; PNumber 3; PNumber 0; PNumber 0]) as Hhigh
    by (vm_compute; reflexivity).
  destruct (parseToDataPoints Samples.secondGroupWithoutHigh) as [dataPoints|];
    [by exists dataPoints | discriminate].
Qed.

(** ** The update entry point *)

(** With [dataViews] present the guard lets the call through, and the
    view model stored is the one [convertToViewModel] returns. *)
Lemma update_viewModel this options this' :
  update this options = Ok this' →
  ∃ views,
    dataViews options = Some views
    ∧ convertToViewModel (mjoin (views !! 0%nat)) = Ok (viewModel this').
Proof.
  unfold update. destruct (dataViews options) as [views|]; [|discriminate].
  cbn [truthy negb prop mbind Result_bind].
  intros Hupdate. exists views. split; [done|].
  destruct (convertToViewModel (mjoin (views !! 0%nat))) as [converted|];
    cbn [mbind Result_bind] in Hupdate; [|discriminate].
  destruct converted as [built|];
    cbn [truthy set_viewModel viewModel] in Hupdate;
    injection Hupdate as <-; [|done].
  by destruct (Geometry.isValid _).
Qed.

(** An absent or structurally invalid first data view clears the plot
    area and leaves no view model. *)
Lemma update_invalid_clears this options views :
  dataViews options = Some views →
  isDataViewValid (mjoin (views !! 0%nat)) = false →
  ∃ this',
    update this options = Ok this'
    ∧ viewModel this' = None
    ∧ ∃ earlier, drawn this' = earlier ++ [RemoveAllFromChart].
Proof.
  intros Hviews Hinvalid. apply convertToViewModel_undefined_iff in Hinvalid.
  unfold update. rewrite Hviews. simpl. rewrite Hinvalid. simpl.
  eexists. split; [reflexivity|]. split; [done|]. simpl. eauto.
Qed.

(** [update] returns exactly when [dataViews] is present and
    [convertToViewModel] returns for its first entry. *)
Lemma update_returns_iff this options :
  (∃ this', update this options = Ok this') ↔
  ∃ views converted,
    dataViews options = Some views
    ∧ convertToViewModel (mjoin (views !! 0%nat)) = Ok converted.
Proof.
  split.
  - intros [this' Hupdate].
    destruct (update_viewModel _ _ _ Hupdate) as (views & Hviews & Hconverted).
    eauto.
  - intros (views & converted & Hviews & Hconverted).
    unfold update. rewrite Hviews.
    cbn [truthy negb prop mbind Result_bind]. rewrite Hconverted.
    cbn [mbind Result_bind]. destruct (truthy _); eauto.
Qed.

(** C2. When the options carry no [dataViews], the guard
    [!options.dataViews && !options.dataViews[0]] reads
    [options.dataViews[0]] and [update] raises a [TypeError] instead of
    returning. *)
Theorem update_absent_dataViews_throws (this : DifferenceAreaChart)
  (viewport : IViewport) :
  update this {| dataViews := None; viewport := viewport |}
  = Throw (TypeError "options.dataViews[0]").
Proof. reflexivity. Qed.

(** ** Property enumeration *)

(** C7. After an update that built a view model, enumerating "outline"
    returns exactly the show and size values, and enumerating "colors" the
    low and high fill colours, that [parseSettings] resolved in that build;
    any other object name returns nothing, and so does every name while
    a visual has no view model. *)
Theorem enumerateObjectInstances_round_trip
  (this this' : DifferenceAreaChart) (options : VisualUpdateOptions)
  (built : DifferenceAreaChartViewModel) :
  update this options = Ok this' →
  viewModel this' = Some built →
  enumerationRoundTrip options this' built.
Proof.
  intros Hupdate Hbuilt.
  destruct (update_viewModel _ _ _ Hupdate) as (views & Hviews & Hconverted).
  rewrite Hbuilt in Hconverted.
  apply convertToViewModel_settings in Hconverted.
  split; [|split].
  - exists views, (settings built).
    unfold enumerateObjectInstances. rewrite Hbuilt. simpl.
    repeat split; done.
  - intros name Houtline Hcolors.
    unfold enumerateObjectInstances. rewrite Hbuilt. simpl.
    apply String.eqb_neq in Houtline, Hcolors. by rewrite Houtline, Hcolors.
  - intros other name Hnone. unfold enumerateObjectInstances. by rewrite Hnone.
Qed.

Lemma enumerateObjectInstances_round_trip_witness :
  enumerationRoundTrip Samples.updateOptions Samples.updated Samples.built.
Proof.
  apply (enumerateObjectInstances_round_trip Samples.initialized).
  - vm_compute. reflexivity.
  - vm_compute. reflexivity.
Defined.

(** ** Geometry *)

Lemma positive_iff (x : number) : positive x = true ↔ (0 < x)%Q.
Proof.
  unfold positive. rewrite negb_true_iff. split.
  - intros Hle. apply Qnot_le_lt. intros Hx.
    apply Qle_bool_iff in Hx. congruence.
  - intros Hlt. destruct (Qle_bool x 0) eqn:Hle; [|done].
    apply Qle_bool_iff in Hle. by apply Qlt_not_le in Hlt.
Qed.

Lemma isValid_iff (geometry : DifferenceAreaChartGeometry) :
  Geometry.isValid geometry = true ↔
  (0 < viewport_width (Geometry.getViewport geometry))%Q
  ∧ (0 < viewport_height (Geometry.getViewport geometry))%Q.
Proof.
  unfold Geometry.isValid. cbv zeta.
  by rewrite andb_true_iff, !positive_iff.
Qed.

(** C8. The margin-adjusted viewport has the stored width less the left
    and right margins and the stored height less the top and bottom
    margins; [isValid] holds exactly when both are strictly positive; and
    when it does not hold, [render] returns having drawn nothing. *)
Theorem geometry_valid_or_no_drawing (geometry : DifferenceAreaChartGeometry) :
  geometryContract geometry.
Proof.
  unfold geometryContract. cbv zeta.
  split; [reflexivity|]. split; [reflexivity|].
  split; [apply isValid_iff|].
  intros Hinvalid this model. unfold render.
  destruct model; [|done]. by rewrite Hinvalid.
Qed.

(** The visual keeps the margins it was constructed with. *)
Lemma update_margin this options this' :
  update this options = Ok this' →
  margin (geometry this') = margin (geometry this).
Proof.
  unfold update. destruct (dataViews options) as [views|]; [|discriminate].
  cbn [truthy negb prop mbind Result_bind].
  destruct (convertToViewModel (mjoin (views !! 0%nat))) as [converted|];
    cbn [mbind Result_bind]; [|discriminate].
  unfold render, cleanPlotArea, updateChartSize.
  intros Hupdate.
  destruct converted; cbn [truthy set_viewModel viewModel] in Hupdate;
    injection Hupdate as <-;
    repeat (destruct (Geometry.isValid _); simpl); reflexivity.
Qed.

Lemma default_margin_viewport (stored : IViewport) :
  let geometry := Geometry.update (Geometry.new defaultMargin) stored in
  viewport_width (Geometry.getViewport geometry)
    = (viewport_width stored - 45 - 30)%Q
  ∧ viewport_height (Geometry.getViewport geometry)
    = (viewport_height stored - 10 - 10)%Q.
Proof. split; reflexivity. Qed.

(** ** Hover lookup *)

Lemma Math_round_nearest (x : number) :
  (inject_Z (Math_round x) - (1 # 2) <= x)%Q
  ∧ (x < inject_Z (Math_round x) + (1 # 2))%Q.
Proof.
  unfold Math_round.
  pose proof (Qfloor_le (x + (1 # 2))) as Hle.
  pose proof (Qlt_floor (x + (1 # 2))) as Hlt.
  rewrite inject_Z_plus in Hlt. change (inject_Z 1) with 1%Q in Hlt.
  split; lra.
Qed.

Lemma at_index_in_range {A : Type} (array : list A) (i : Z) :
  (0 ≤ i < Z.of_nat (length array))%Z →
  ∃ a, array !! Z.to_nat i = Some a ∧ at_index array i = Some a.
Proof.
  intros [Hlow Hhigh]. unfold at_index.
  destruct (Z.ltb_spec i 0); [lia|].
  destruct (lookup_lt_is_Some_2 array (Z.to_nat i)) as [a Ha]; [lia|].
  eauto.
Qed.

Lemma at_index_out_of_range {A : Type} (array : list A) (i : Z) :
  ¬ (0 ≤ i < Z.of_nat (length array))%Z → at_index array i = None.
Proof.
  intros Hout. unfold at_index.
  destruct (Z.ltb_spec i 0); [done|].
  apply lookup_ge_None_2. lia.
Qed.

(** C9. The hover lookup rounds the position to the nearest index and
    selects the data point there: the delegate returns that point's
    tooltip, drawing at the position of the point in the current view
    model's data. When the rounded index lies outside [0, N-1] no point is
    returned, nothing is drawn and the tooltip delegate yields no payload. *)
Theorem hover_lookup_rounds (xIndex : number)
  (points : list DifferenceAreaChartDataPoint) :
  hoverContract xIndex points.
Proof.
  unfold hoverContract. cbv zeta.
  split; [apply Math_round_nearest|]. split.
  - intros Hrange.
    destruct (at_index_in_range points _ Hrange) as (point & Hlookup & Hat).
    exists point. split; [done|]. split; [done|]. split.
    + intros this rendered Hdata Hcurrent.
      unfold tooltipInfoDelegate, getClosestDataPoint.
      by rewrite Hdata, Hat, Hcurrent.
    + intros this rendered current Hdata Hcurrent.
      unfold tooltipInfoDelegate, getClosestDataPoint.
      by rewrite Hdata, Hat, Hcurrent.
  - intros Hout. apply at_index_out_of_range in Hout.
    split; [done|].
    intros this rendered registered Hdata.
    unfold tooltipInfoDelegate, getClosestDataPoint.
    by rewrite Hdata, Hout.
Qed.

(** ** Settings resolution *)

Lemma stored_empty propertyId : DataViewObjects.stored ∅ propertyId = None.
Proof. unfold DataViewObjects.stored. by rewrite lookup_empty. Qed.

Lemma parseSettings_store (dataView : option DataView) :
  parseSettings dataView
  = Some
      {| outline :=
           {| showOutline := DataViewObjects.getValue_boolean (storeOf dataView)
                Properties.outline_show true;
              size := DataViewObjects.getValue_number (storeOf dataView)
                Properties.outline_size 2 |};
         colors :=
           {| highColor := DataViewObjects.getFillColor (storeOf dataView)
                Properties.colors_highColor "Green";
              lowColor := DataViewObjects.getFillColor (storeOf dataView)
                Properties.colors_lowColor "Red" |} |}.
Proof.
  unfold parseSettings, storeOf.
  destruct (getObjectsFromDataView dataView); simpl; [reflexivity|].
  unfold DataViewObjects.getValue_boolean, DataViewObjects.getValue_number,
    DataViewObjects.getFillColor.
  by rewrite !stored_empty.
Qed.

Lemma stored_setProperty objects written value read :
  read ≠ written →
  DataViewObjects.stored (setProperty objects written value) read
  = DataViewObjects.stored objects read.
Proof.
  intros Hne. unfold DataViewObjects.stored, setProperty.
  destruct (decide (objectName read = objectName written)) as [Hobject | Hobject].
  - rewrite Hobject, lookup_insert_eq. simpl.
    assert (propertyName read ≠ propertyName written) as Hproperty.
    { intros Hproperty. apply Hne.
      destruct read, written. simpl in *. congruence. }
    rewrite lookup_insert_ne by done.
    by destruct (objects !! objectName written).
  - by rewrite lookup_insert_ne.
Qed.

Lemma storeOf_withObjects dv store :
  storeOf (Some (withObjects dv (Some store)))
  = match metadata dv with Some _ => store | None => ∅ end.
Proof.
  unfold storeOf, getObjectsFromDataView, withObjects. simpl.
  by destruct (metadata dv).
Qed.

(** C6. Settings resolution starts from the fixed defaults (outline shown,
    stroke width 2, high fill Green, low fill Red); each of outline.show,
    outline.size, colors.highColor and colors.lowColor resolves to the
    value the property store holds for it when there is one and to the
    default otherwise; the result depends on the store through these four
    properties only, so writing any other property never changes it. *)
Theorem parseSettings_overlays_defaults (dataView : option DataView) :
  settingsResolution dataView.
Proof.
  split; [reflexivity|]. split; [|split].
  - eexists. split; [apply parseSettings_store|]. simpl.
    unfold DataViewObjects.getValue_boolean, DataViewObjects.getValue_number,
      DataViewObjects.getFillColor, storedBoolean, storedNumber, storedColor.
    repeat split.
    + by destruct (DataViewObjects.stored _ Properties.outline_show) as [[]|].
    + by destruct (DataViewObjects.stored _ Properties.outline_size) as [[]|].
    + by destruct (DataViewObjects.stored _ Properties.colors_highColor) as [[]|].
    + by destruct (DataViewObjects.stored _ Properties.colors_lowColor) as [[]|].
  - intros other Hagree. rewrite !parseSettings_store.
    unfold DataViewObjects.getValue_boolean, DataViewObjects.getValue_number,
      DataViewObjects.getFillColor.
    rewrite !Hagree; [done | | | |]; unfold recognized; set_solver.
  - intros dv store propertyId value -> Hunrecognized.
    rewrite !parseSettings_store, !storeOf_withObjects.
    destruct (metadata dv); [|done].
    unfold DataViewObjects.getValue_boolean, DataViewObjects.getValue_number,
      DataViewObjects.getFillColor.
    rewrite !stored_setProperty; [done | | | |];
      intros <-; apply Hunrecognized; unfold recognized; set_solver.
Qed.

Lemma parseSettings_overlays_defaults_witness :
  parseSettings (Some Samples.styled)
  = Some {| outline := {| showOutline := false; size := 2 |};
            colors := {| highColor := "Green"; lowColor := "Blue" |} |}
  ∧ parseSettings
      (Some (withObjects Samples.styled
         (Some (setProperty (storeOf (Some Samples.styled))
                  {| objectName := "outline"; propertyName := "colour" |}
                  (PropText "Pink")))))
    = parseSettings (Some Samples.styled).
Proof.
  destruct (parseSettings_overlays_defaults (Some Samples.styled))
    as (_ & _ & _ & Hunrecognized).
  split; [vm_compute; reflexivity|].
  apply Hunrecognized.
  - vm_compute. reflexivity.
  - unfold recognized. intros Hin.
    repeat (apply elem_of_cons in Hin as [Heq | Hin]; [discriminate Heq|]).
    by apply elem_of_nil in Hin.
Defined.

(** ** Settings never decide absence *)

Lemma isDataViewValid_withObjects dv store :
  isDataViewValid (Some (withObjects dv store)) = isDataViewValid (Some dv).
Proof. unfold isDataViewValid, withObjects. simpl. by destruct (metadata dv). Qed.

(** C10. [parseSettings] returns a settings object for every data view, so
    the [if (!settings)] guard of [convertToViewModel] never fires:
    [convertToViewModel] returns [undefined] exactly when the data view is
    not structurally valid, and replacing the property store of a data view
    never changes whether it does. *)
Theorem parseSettings_never_absent (dataView : option DataView) (dv : DataView)
  (store : option (gmap string (gmap string DataViewPropertyValue))) :
  is_Some (parseSettings dataView)
  ∧ (convertToViewModel dataView = Ok None ↔ isDataViewValid dataView = false)
  ∧ (convertToViewModel (Some (withObjects dv store)) = Ok None
     ↔ convertToViewModel (Some dv) = Ok None).
Proof.
  split; [apply parseSettings_defined|].
  split; [apply convertToViewModel_undefined_iff|].
  by rewrite !convertToViewModel_undefined_iff, isDataViewValid_withObjects.
Qed.

Lemma geometry_valid_or_no_drawing_witness :
  render Samples.initialized (Some Samples.built) Samples.tooLow
  = Samples.initialized.
Proof.
  destruct (geometry_valid_or_no_drawing Samples.tooLow) as (_ & _ & _ & Hskip).
  apply Hskip. vm_compute. reflexivity.
Defined.

Lemma hover_lookup_rounds_witness :
  getClosestDataPoint (5 # 2) (data Samples.built) = None
  ∧ tooltipInfoDelegate Samples.updated Samples.built true (5 # 2)
    = Ok (Samples.updated, None)
  ∧ ∃ point,
      data Samples.built !! 2%nat = Some point
      ∧ tooltipInfoDelegate Samples.updated Samples.built true (17 # 10)
        = Ok (drawHoverLineDataPoints
                (drawHoverLine Samples.updated point 2)
                (colors (settings Samples.built)) point 2,
              Some (tooltipInfo point)).
Proof.
  destruct (hover_lookup_rounds (5 # 2) (data Samples.built))
    as (_ & _ & Hout).
  destruct (hover_lookup_rounds (17 # 10) (data Samples.built))
    as (_ & Hin & _).
  destruct Hout as [Hnone Hdelegate].
  { vm_compute. intros [_ Hlt]. discriminate Hlt. }
  destruct Hin as (point & Hlookup & _ & Hsame & _).
  { vm_compute. split; congruence. }
  split; [exact Hnone|]. split; [by apply Hdelegate|].
  exists point. split; [exact Hlookup|].
  apply Hsame; [reflexivity | vm_compute; reflexivity].
Defined.

(** * Further properties *)

(** ** What the loops emit *)

Lemma parseDataPoint_inv dataViewCategorical firstCategory seriesValues
  lowMeasureIndex highMeasureIndex i dataPoint :
  parseDataPoint dataViewCategorical firstCategory seriesValues
    lowMeasureIndex highMeasureIndex i = Ok dataPoint →
  ∃ columns lowColumn lowSource,
    categories dataViewCategorical = Some columns
    ∧ at_index seriesValues lowMeasureIndex = Some lowColumn
    ∧ column_source lowColumn = Some lowSource
    ∧ categoryIndex dataPoint = i
    ∧ categoryValue dataPoint = category_values firstCategory !! i
    ∧ low dataPoint = measureValue (Some lowColumn) i
    ∧ high dataPoint = measureValue (at_index seriesValues highMeasureIndex) i
    ∧ tooltipOfPoint dataPoint.
Proof.
  unfold parseDataPoint.
  destruct (categories dataViewCategorical) as [columns|]; [|discriminate].
  destruct (at_index seriesValues lowMeasureIndex) as [lowColumn|] eqn:Hlow;
    [|discriminate].
  simpl. destruct (column_source lowColumn) as [lowSource|] eqn:Hsource;
    [|discriminate].
  simpl. intros [= <-]. exists columns, lowColumn, lowSource.
  repeat split; try done.
  exists lowColumn, lowSource, (at_index seriesValues highMeasureIndex).
  repeat split; done.
Qed.

Lemma categoryLoop_Forall (P : DifferenceAreaChartDataPoint → Prop)
  body remaining start dataPoints result :
  Forall P dataPoints →
  (∀ i dataPoint, body i = Ok dataPoint → P dataPoint) →
  categoryLoop body remaining start dataPoints = Ok result →
  Forall P result.
Proof.
  intros Hacc Hbody. revert start dataPoints Hacc.
  induction remaining as [|remaining IH]; intros start dataPoints Hacc; simpl.
  - by intros [= <-].
  - destruct (body start) as [dataPoint|] eqn:Hpoint; [|discriminate].
    simpl. apply IH. apply Forall_app. split; [done|].
    apply Forall_singleton. by eapply Hbody.
Qed.

Lemma seriesLoop_Forall (P : DifferenceAreaChartDataPoint → Prop)
  dataViewCategorical firstCategory lowMeasureIndex highMeasureIndex
  groups seriesIndex dataPoints result :
  Forall P dataPoints →
  (∀ group i dataPoint,
     group ∈ groups →
     parseDataPoint dataViewCategorical firstCategory (group_values group)
       lowMeasureIndex highMeasureIndex i = Ok dataPoint →
     P dataPoint) →
  seriesLoop dataViewCategorical firstCategory lowMeasureIndex highMeasureIndex
    groups seriesIndex dataPoints = Ok result →
  Forall P result.
Proof.
  revert seriesIndex dataPoints.
  induction groups as [|group rest IH]; intros seriesIndex dataPoints Hacc Hbody;
    simpl.
  - by intros [= <-].
  - destruct (categories dataViewCategorical) as [columns|]; [|discriminate].
    simpl. destruct (columns !! seriesIndex) as [column|]; [|discriminate].
    simpl.
    destruct (categoryLoop _ _ _ _) as [added|] eqn:Hloop; [|discriminate].
    simpl. apply IH.
    + eapply categoryLoop_Forall; [exact Hacc | | exact Hloop].
      intros i dataPoint. apply Hbody, list_elem_of_here.
    + intros g i dataPoint Hg. apply Hbody. by apply list_elem_of_further.
Qed.

(** A non-empty result means the first category column exists and is the
    one the labels are read from. *)
Lemma parseToDataPoints_first_category dataViewCategorical dataPoints :
  parseToDataPoints dataViewCategorical = Ok dataPoints →
  dataPoints ≠ [] →
  ∃ columns first,
    categories dataViewCategorical = Some columns
    ∧ columns !! 0%nat = Some first
    ∧ firstCategoryOrBlank dataViewCategorical = first.
Proof.
  unfold parseToDataPoints, firstCategoryOrBlank.
  destruct (_ && _); [|by intros [= <-]].
  destruct (groupedValues dataViewCategorical) as [|group rest];
    [by intros [= <-]|].
  simpl. destruct (categories dataViewCategorical) as [columns|]; [|discriminate].
  destruct columns as [|first others]; [discriminate|].
  intros _ _. by exists (first :: others), first.
Qed.

Lemma parseToDataPoints_emitted dataViewCategorical dataPoints :
  parseToDataPoints dataViewCategorical = Ok dataPoints →
  Forall (emittedFrom dataViewCategorical) dataPoints.
Proof.
  intros Hparse.
  destruct dataPoints as [|head tail]; [constructor|].
  destruct (parseToDataPoints_first_category _ _ Hparse)
    as (columns & first & Hcolumns & Hfirst & Hblank); [done|].
  revert Hparse. generalize (head :: tail). clear head tail.
  intros dataPoints. unfold parseToDataPoints.
  destruct (_ && _); [|intros [= <-]; constructor].
  apply seriesLoop_Forall; [constructor|].
  intros group i dataPoint Hgroup Hpoint.
  apply parseDataPoint_inv in Hpoint
    as (columns' & lowColumn & lowSource & _ & Hlow & _ & Hindex & Hlabel
        & Hlowvalue & Hhighvalue & _).
  exists columns, first, group.
  rewrite Hindex, Hlabel, Hlowvalue, Hhighvalue, Hblank, Hlow. done.
Qed.

(** ** The loops over several series groups *)

Lemma categoryLoop_indices body remaining dataPoints :
  (∀ i, (i < remaining)%nat →
        ∃ dataPoint, body i = Ok dataPoint ∧ categoryIndex dataPoint = i) →
  ∃ added,
    categoryLoop body remaining 0 dataPoints = Ok (dataPoints ++ added)
    ∧ categoryIndex <$> added = seq 0 remaining.
Proof.
  intros Hbody.
  destruct (categoryLoop_ok body remaining 0%nat dataPoints)
    as (added & Hloop & Hlength & Hindex).
  { intros i Hi. apply Hbody. lia. }
  exists added. split; [done|].
  apply list_eq. intros j. rewrite list_lookup_fmap.
  destruct (added !! j) as [dataPoint|] eqn:Hj; simpl.
  - rewrite (Hindex _ _ Hj). symmetry. apply lookup_seq_lt.
    apply lookup_lt_Some in Hj. lia.
  - symmetry. apply lookup_seq_ge. apply lookup_ge_None in Hj. lia.
Qed.

Lemma seriesLoop_indices dataViewCategorical firstCategory
  lowMeasureIndex highMeasureIndex columns groups :
  categories dataViewCategorical = Some columns →
  ∀ seriesIndex dataPoints,
    (seriesIndex + length groups ≤ length columns)%nat →
    (∀ group, group ∈ groups →
       ∃ lowColumn lowSource,
         at_index (group_values group) lowMeasureIndex = Some lowColumn
         ∧ column_source lowColumn = Some lowSource) →
    ∃ added,
      seriesLoop dataViewCategorical firstCategory
        lowMeasureIndex highMeasureIndex groups seriesIndex dataPoints
      = Ok (dataPoints ++ added)
      ∧ categoryIndex <$> added
        = indicesPerGroup (drop seriesIndex columns) (length groups).
Proof.
  intros Hcolumns. unfold indicesPerGroup.
  induction groups as [|group rest IH]; intros seriesIndex dataPoints Hfit Hlow.
  - exists []. simpl. by rewrite app_nil_r.
  - simpl in Hfit.
    destruct (lookup_lt_is_Some_2 columns seriesIndex) as [column Hcolumn]; [lia|].
    destruct (Hlow group) as (lowColumn & lowSource & Hat & Hsource);
      [apply list_elem_of_here|].
    destruct (categoryLoop_indices
                (parseDataPoint dataViewCategorical firstCategory
                   (group_values group) lowMeasureIndex highMeasureIndex)
                (length (category_values column)) dataPoints)
      as (first & Hfirst & Hfirstindices).
    { intros i _.
      destruct (parseDataPoint_ok dataViewCategorical firstCategory
                  (group_values group) lowMeasureIndex highMeasureIndex i
                  columns lowColumn lowSource)
        as (dataPoint & Hpoint & Hindex & _); eauto. }
    destruct (IH (S seriesIndex) (dataPoints ++ first)) as (more & Hmore & Hindices).
    { lia. }
    { intros g Hg. apply Hlow. by apply list_elem_of_further. }
    exists (first ++ more). split.
    + cbn [seriesLoop]. rewrite Hcolumns. simpl prop. rewrite bind_Ok.
      rewrite Hcolumn. simpl prop. rewrite bind_Ok, Hfirst, bind_Ok, Hmore.
      by rewrite app_assoc.
    + rewrite fmap_app, Hfirstindices, Hindices.
      rewrite (drop_S _ _ _ Hcolumn). reflexivity.
Qed.

(** X3. When both role lookups succeed, there are at least as many
    category columns as series groups, and every group holds a Low column
    with a source, [parseToDataPoints] returns, and the category indices of
    its points run, group after group, through the positions of the k-th
    category column for the k-th group: they start again at 0 with each
    group. *)
Theorem parseToDataPoints_indices_per_group
  (dataViewCategorical : DataViewCategorical)
  (columns : list DataViewCategoryColumn) :
  categories dataViewCategorical = Some columns →
  rolesFound dataViewCategorical →
  (length (groupedValues dataViewCategorical) ≤ length columns)%nat →
  lowColumnsPresent dataViewCategorical →
  ∃ dataPoints,
    parseToDataPoints dataViewCategorical = Ok dataPoints
    ∧ categoryIndex <$> dataPoints
      = indicesPerGroup columns (length (groupedValues dataViewCategorical)).
Proof.
  intros Hcolumns [Hlow Hhigh] Hfit Hpresent.
  unfold parseToDataPoints.
  apply Z.leb_le in Hlow, Hhigh. rewrite Hlow, Hhigh. simpl andb. cbv iota.
  destruct (seriesLoop_indices dataViewCategorical
              (firstCategoryOrBlank dataViewCategorical)
              (getMeasureIndexOfRole (groupedValues dataViewCategorical) "Low")
              (getMeasureIndexOfRole (groupedValues dataViewCategorical) "High")
              columns (groupedValues dataViewCategorical) Hcolumns 0%nat [])
    as (added & Hloop & Hindices); [simpl; lia | exact Hpresent |].
  exists added. by rewrite Hloop.
Qed.

Lemma parseToDataPoints_indices_per_group_witness :
  ∃ dataPoints,
    parseToDataPoints Samples.twoSeriesTwoColumns = Ok dataPoints
    ∧ categoryIndex <$> dataPoints = [0; 1; 0; 1]%nat.
Proof.
  apply (parseToDataPoints_indices_per_group Samples.twoSeriesTwoColumns
           [Samples.category ["A"; "B"]; Samples.category ["A"; "B"]]).
  - reflexivity.
  - split; vm_compute; congruence.
  - simpl. lia.
  - intros group Hgroup.
    apply elem_of_cons in Hgroup as [-> | Hgroup].
    { exists (Samples.measure "Low" [1; 2]%Z). eexists.
      split; vm_compute; reflexivity. }
    apply elem_of_cons in Hgroup as [-> | Hgroup].
    { exists (Samples.measure "Low" [2; 2]%Z). eexists.
      split; vm_compute; reflexivity. }
    by apply elem_of_nil in Hgroup.
Defined.

Lemma seriesLoop_short_of_columns dataViewCategorical firstCategory
  lowMeasureIndex highMeasureIndex columns groups :
  categories dataViewCategorical = Some columns →
  ∀ seriesIndex dataPoints,
    (seriesIndex ≤ length columns)%nat →
    (length columns < seriesIndex + length groups)%nat →
    ∃ e, seriesLoop dataViewCategorical firstCategory
           lowMeasureIndex highMeasureIndex groups seriesIndex dataPoints
         = Throw e.
Proof.
  intros Hcolumns.
  induction groups as [|group rest IH]; intros seriesIndex dataPoints Hle Hshort.
  - simpl in Hshort. lia.
  - cbn [seriesLoop]. rewrite Hcolumns. simpl prop. rewrite bind_Ok.
    destruct (columns !! seriesIndex) as [column|] eqn:Hcolumn;
      [|eexists; reflexivity].
    simpl prop. rewrite bind_Ok.
    destruct (categoryLoop _ _ _ _) as [added|e]; [|eexists; reflexivity].
    rewrite bind_Ok. apply IH.
    + apply lookup_lt_Some in Hcolumn. lia.
    + simpl in Hshort. lia.
Qed.

(** X4. When both role lookups succeed and the dataset has more series
    groups than category columns (none counting as zero),
    [parseToDataPoints] raises an error: the bound of the inner loop reads
    the category column at the series index. *)
Theorem parseToDataPoints_more_groups_than_columns
  (dataViewCategorical : DataViewCategorical) :
  rolesFound dataViewCategorical →
  (length (default [] (categories dataViewCategorical))
   < length (groupedValues dataViewCategorical))%nat →
  ∃ e, parseToDataPoints dataViewCategorical = Throw e.
Proof.
  intros [Hlow Hhigh] Hshort. unfold parseToDataPoints.
  apply Z.leb_le in Hlow, Hhigh. rewrite Hlow, Hhigh. simpl andb. cbv iota.
  destruct (categories dataViewCategorical) as [columns|] eqn:Hcolumns.
  - eapply seriesLoop_short_of_columns; [done | lia | simpl in *; lia].
  - destruct (groupedValues dataViewCategorical) as [|group rest];
      [simpl in Hshort; lia|].
    cbn [seriesLoop]. rewrite Hcolumns. eexists. reflexivity.
Qed.

Lemma parseToDataPoints_more_groups_than_columns_witness :
  ∃ e, parseToDataPoints Samples.twoSeries = Throw e.
Proof.
  apply parseToDataPoints_more_groups_than_columns.
  - split; vm_compute; congruence.
  - simpl. lia.
Defined.

(** ** The property store and the data *)

(** X5. The property store never reaches the data: replacing the store of
    a data view leaves the data points, the selector and any error of
    [convertToViewModel] as they were. *)
Theorem convertToViewModel_data_ignores_store (dataView : DataView)
  (store : option (gmap string (gmap string DataViewPropertyValue))) :
  builtData (convertToViewModel (Some (withObjects dataView store)))
  = builtData (convertToViewModel (Some dataView)).
Proof.
  destruct (isDataViewValid (Some dataView)) eqn:Hvalid.
  - pose proof Hvalid as Hvalid'.
    rewrite <- (isDataViewValid_withObjects dataView store) in Hvalid'.
    destruct (convertToViewModel_valid _ Hvalid)
      as (dv & c & resolved & first & [= <-] & Hc & _ & Hfirst & ->).
    destruct (convertToViewModel_valid _ Hvalid')
      as (dv' & c' & resolved' & first' & [= <-] & Hc' & _ & Hfirst' & ->).
    simpl in Hc'. rewrite Hc in Hc'. injection Hc' as <-.
    rewrite Hfirst in Hfirst'. injection Hfirst' as <-.
    by destruct (parseToDataPoints c).
  - pose proof Hvalid as Hvalid'.
    rewrite <- (isDataViewValid_withObjects dataView store) in Hvalid'.
    apply convertToViewModel_undefined_iff in Hvalid, Hvalid'.
    by rewrite Hvalid, Hvalid'.
Qed.

(** ** The update cycle *)

Lemma Ok_inj {A : Type} (a b : A) : Ok a = Ok b → a = b.
Proof. by intros [= ->]. Qed.

(** [update] with [dataViews] present, step by step. *)
Lemma update_present this options views :
  dataViews options = Some views →
  update this options
  = (converted ← convertToViewModel (mjoin (views !! 0%nat));
     let sized :=
       updateChartSize
         (set_geometry this (Geometry.update (geometry this) (viewport options)))
         (Geometry.update (geometry this) (viewport options)) in
     if truthy converted
     then Ok (render (set_viewModel sized converted) converted (geometry sized))
     else Ok (cleanPlotArea (set_viewModel sized converted))).
Proof. intros Hviews. unfold update. rewrite Hviews. reflexivity. Qed.

Lemma updateChartSize_geometry this geometry0 :
  geometry (updateChartSize this geometry0) = geometry this.
Proof. unfold updateChartSize. by destruct (Geometry.isValid geometry0). Qed.

Lemma updateChartSize_uniqueVisualId this geometry0 :
  uniqueVisualId (updateChartSize this geometry0) = uniqueVisualId this.
Proof. unfold updateChartSize. by destruct (Geometry.isValid geometry0). Qed.

Lemma render_fields this model geometry0 :
  geometry (render this model geometry0) = geometry this
  ∧ uniqueVisualId (render this model geometry0) = uniqueVisualId this
  ∧ viewModel (render this model geometry0) = viewModel this.
Proof.
  unfold render. destruct model; [|done].
  by destruct (Geometry.isValid geometry0).
Qed.

(** What a returning [update] leaves in the fields of the visual. *)
Lemma update_fields this options this' :
  update this options = Ok this' →
  ∃ views,
    dataViews options = Some views
    ∧ convertToViewModel (mjoin (views !! 0%nat)) = Ok (viewModel this')
    ∧ geometry this' = Geometry.update (geometry this) (viewport options)
    ∧ uniqueVisualId this' = uniqueVisualId this.
Proof.
  intros Hupdate.
  destruct (dataViews options) as [views|] eqn:Hviews;
    [|unfold update in Hupdate; rewrite Hviews in Hupdate; discriminate].
  rewrite (update_present _ _ _ Hviews) in Hupdate.
  exists views. split; [done|].
  destruct (convertToViewModel (mjoin (views !! 0%nat))) as [converted|];
    [|discriminate].
  rewrite bind_Ok in Hupdate. cbv zeta in Hupdate.
  destruct converted as [built|]; cbn [truthy] in Hupdate;
    apply Ok_inj in Hupdate; subst this'.
  - destruct (render_fields
                (set_viewModel
                   (updateChartSize
                      (set_geometry this
                         (Geometry.update (geometry this) (viewport options)))
                      (Geometry.update (geometry this) (viewport options)))
                   (Some built))
                (Some built)
                (geometry
                   (updateChartSize
                      (set_geometry this
                         (Geometry.update (geometry this) (viewport options)))
                      (Geometry.update (geometry this) (viewport options)))))
      as (-> & -> & ->).
    cbn [set_viewModel geometry uniqueVisualId viewModel].
    by rewrite updateChartSize_geometry, updateChartSize_uniqueVisualId.
  - cbn [cleanPlotArea draw set_viewModel geometry uniqueVisualId viewModel].
    by rewrite updateChartSize_geometry, updateChartSize_uniqueVisualId.
Qed.

(** X6. [update] catches nothing: it raises an error to the host
    whenever the options carry no [dataViews] and whenever
    [convertToViewModel] raises on the first data view. *)
Theorem update_propagates_errors (this : DifferenceAreaChart)
  (options : VisualUpdateOptions) :
  dataViews options = None
  ∨ (∃ views e,
       dataViews options = Some views
       ∧ convertToViewModel (mjoin (views !! 0%nat)) = Throw e) →
  ∃ e, update this options = Throw e.
Proof.
  intros [Hnone | (views & e & Hviews & Hconverted)].
  - unfold update. rewrite Hnone. eexists. reflexivity.
  - rewrite (update_present _ _ _ Hviews), Hconverted. by exists e.
Qed.

Lemma update_propagates_errors_witness :
  ∃ e,
    update Samples.initialized
      {| dataViews := Some [Some (Samples.dataViewOf Samples.twoSeries)];
         viewport := {| viewport_height := 100; viewport_width := 200 |} |}
    = Throw e.
Proof.
  apply update_propagates_errors. right.
  exists [Some (Samples.dataViewOf Samples.twoSeries)].
  eexists. split; [reflexivity|]. vm_compute. reflexivity.
Defined.

(** X7. A returning [update] rebuilds the visual's data from the options
    alone: the stored viewport is the one of the options, the view model
    is the one any other visual would get from the same options, and the
    margins and the unique id are left as they were. *)
Theorem update_rebuilds_from_options (this this' : DifferenceAreaChart)
  (options : VisualUpdateOptions) :
  update this options = Ok this' →
  viewportNoMargins (geometry this') = viewport options
  ∧ margin (geometry this') = margin (geometry this)
  ∧ uniqueVisualId this' = uniqueVisualId this
  ∧ ∀ other other',
      update other options = Ok other' → viewModel other' = viewModel this'.
Proof.
  intros Hupdate.
  destruct (update_fields _ _ _ Hupdate)
    as (views & Hviews & Hconverted & Hgeometry & Hid).
  rewrite Hgeometry. repeat split; try done.
  intros other other' Hother.
  destruct (update_fields _ _ _ Hother)
    as (views' & Hviews' & Hconverted' & _).
  rewrite Hviews in Hviews'. injection Hviews' as <-. congruence.
Qed.

Lemma update_rebuilds_from_options_witness :
  viewportNoMargins (geometry Samples.updated)
  = {| viewport_height := 100; viewport_width := 200 |}
  ∧ margin (geometry Samples.updated) = defaultMargin.
Proof.
  destruct (update_rebuilds_from_options Samples.initialized Samples.updated
              Samples.updateOptions) as (Hviewport & Hmargin & _).
  - vm_compute. reflexivity.
  - split; [exact Hviewport | exact Hmargin].
Defined.

(** X8. An update whose first data view is absent or structurally invalid
    returns, clears the plot area and drops the view model, whatever view
    model the visual held: enumeration answers nothing afterwards. *)
Theorem update_invalid_drops_view_model (this : DifferenceAreaChart)
  (options : VisualUpdateOptions) (views : list (option DataView)) :
  dataViews options = Some views →
  isDataViewValid (mjoin (views !! 0%nat)) = false →
  ∃ this',
    update this options = Ok this'
    ∧ viewModel this' = None
    ∧ last (drawn this') = Some RemoveAllFromChart
    ∧ ∀ name,
        enumerateObjectInstances this' {| enumerate_objectName := name |} = None.
Proof.
  intros Hviews Hinvalid. apply convertToViewModel_undefined_iff in Hinvalid.
  rewrite (update_present _ _ _ Hviews), Hinvalid, bind_Ok. cbv zeta.
  cbn [truthy]. eexists. split; [reflexivity|].
  split; [reflexivity|]. split.
  - cbn [cleanPlotArea draw drawn]. apply last_snoc.
  - intros name. reflexivity.
Qed.

Lemma update_invalid_drops_view_model_witness :
  ∃ this',
    update Samples.updated
      {| dataViews := Some [None];
         viewport := {| viewport_height := 100; viewport_width := 200 |} |}
    = Ok this'
    ∧ viewModel this' = None
    ∧ last (drawn this') = Some RemoveAllFromChart
    ∧ ∀ name,
        enumerateObjectInstances this' {| enumerate_objectName := name |} = None.
Proof.
  apply (update_invalid_drops_view_model Samples.updated _ [None]);
    reflexivity.
Defined.

(** X9. When the viewport of the options leaves no room inside the
    margins, an update with a data view that converts to a view model
    returns having drawn nothing, and still stores the view model. *)
Theorem update_without_room_draws_nothing (this : DifferenceAreaChart)
  (options : VisualUpdateOptions) (views : list (option DataView))
  (built : DifferenceAreaChartViewModel) :
  dataViews options = Some views →
  convertToViewModel (mjoin (views !! 0%nat)) = Ok (Some built) →
  Geometry.isValid (Geometry.update (geometry this) (viewport options)) = false →
  ∃ this',
    update this options = Ok this'
    ∧ drawn this' = drawn this
    ∧ viewModel this' = Some built.
Proof.
  intros Hviews Hbuilt Hroom.
  rewrite (update_present _ _ _ Hviews), Hbuilt, bind_Ok. cbv zeta.
  cbn [truthy]. eexists. split; [reflexivity|].
  unfold render, updateChartSize. rewrite Hroom.
  cbn [set_viewModel set_geometry geometry]. rewrite Hroom. done.
Qed.

Lemma update_without_room_draws_nothing_witness :
  ∃ this',
    update Samples.initialized
      {| dataViews := Some [Some Samples.styled];
         viewport := {| viewport_height := 20; viewport_width := 200 |} |}
    = Ok this'
    ∧ drawn this' = drawn Samples.initialized
    ∧ viewModel this' = Some Samples.built.
Proof.
  apply (update_without_room_draws_nothing Samples.initialized _
           [Some Samples.styled]).
  - reflexivity.
  - vm_compute. reflexivity.
  - vm_compute. reflexivity.
Defined.

(** ** The default margins *)

(** X10. A visual that has the default margins (45 left, 30 right, 10 top,
    10 bottom) is, after an update, able to draw exactly when the viewport
    of the options is wider than 75 and higher than 20. *)
Theorem update_room_with_default_margins (this this' : DifferenceAreaChart)
  (options : VisualUpdateOptions) :
  margin (geometry this) = defaultMargin →
  update this options = Ok this' →
  Geometry.isValid (geometry this') = true ↔
  (75 < viewport_width (viewport options))%Q
  ∧ (20 < viewport_height (viewport options))%Q.
Proof.
  intros Hmargin Hupdate.
  destruct (update_fields _ _ _ Hupdate) as (views & _ & _ & -> & _).
  rewrite isValid_iff. unfold Geometry.getViewport, Geometry.update.
  cbn [margin viewportNoMargins viewport_width viewport_height].
  rewrite Hmargin. unfold defaultMargin.
  cbn [margin_left margin_right margin_top margin_bottom].
  split; intros [Hwidth Hheight]; split; lra.
Qed.

Lemma update_room_with_default_margins_witness :
  Geometry.isValid (geometry Samples.updated) = true ↔
  (75 < 200)%Q ∧ (20 < 100)%Q.
Proof.
  apply (update_room_with_default_margins Samples.initialized Samples.updated
           Samples.updateOptions).
  - reflexivity.
  - vm_compute. reflexivity.
Defined.

(** ** One series group: the values of the points *)

Lemma parseToDataPoints_single_series_values dataViewCategorical group columns
  first :
  groupedValues dataViewCategorical = [group] →
  categories dataViewCategorical = Some columns →
  columns !! 0%nat = Some first →
  someColumnCarries dataViewCategorical "Low" →
  someColumnCarries dataViewCategorical "High" →
  ∃ dataPoints,
    parseToDataPoints dataViewCategorical = Ok dataPoints
    ∧ length dataPoints = length (category_values first)
    ∧ ∀ i dataPoint,
        dataPoints !! i = Some dataPoint →
        pointOfCategory dataViewCategorical first group i dataPoint.
Proof.
  intros Hgroups Hcolumns Hfirst Hlow Hhigh.
  destruct (parseToDataPoints_single_series _ _ _ _ Hgroups Hcolumns Hfirst
              Hlow Hhigh) as (dataPoints & Hparse & Hlength & Hindex).
  exists dataPoints. split; [done|]. split; [done|].
  intros i dataPoint Hi.
  pose proof (parseToDataPoints_emitted _ _ Hparse) as Hemitted.
  rewrite Forall_forall in Hemitted.
  destruct (Hemitted dataPoint) as (columns' & first' & group' & Hcolumns'
    & Hfirst' & Hgroup' & Hlabel & Hlowvalue & Hhighvalue).
  { apply list_elem_of_lookup. eauto. }
  rewrite Hcolumns in Hcolumns'. injection Hcolumns' as <-.
  rewrite Hfirst in Hfirst'. injection Hfirst' as <-.
  rewrite Hgroups in Hgroup'. apply list_elem_of_singleton in Hgroup' as ->.
  apply Hindex in Hi. rewrite Hi in Hlabel, Hlowvalue, Hhighvalue.
  by repeat split.
Qed.

(** ** Hovering *)

Lemma Qfloor_unique (q : Q) (n : Z) :
  (inject_Z n <= q)%Q → (q < inject_Z n + 1)%Q → Qfloor q = n.
Proof.
  intros Hlow Hhigh.
  pose proof (Qfloor_le q) as Hfloor.
  pose proof (Qlt_floor q) as Hnext.
  rewrite inject_Z_plus in Hnext. change (inject_Z 1) with 1%Q in Hnext.
  destruct (Z.lt_trichotomy (Qfloor q) n) as [Hlt | [Heq | Hgt]]; [|done|].
  - assert (Qfloor q + 1 ≤ n)%Z as Hstep by lia.
    rewrite Zle_Qle, inject_Z_plus in Hstep.
    change (inject_Z 1) with 1%Q in Hstep. lra.
  - assert (n + 1 ≤ Qfloor q)%Z as Hstep by lia.
    rewrite Zle_Qle, inject_Z_plus in Hstep.
    change (inject_Z 1) with 1%Q in Hstep. lra.
Qed.

(** X12. Hovering exactly at the x position of point [i] selects
    point [i], and hovering halfway between [i] and [i + 1] selects the
    right neighbour [i + 1]. *)
Theorem getClosestDataPoint_at_index
  (points : list DifferenceAreaChartDataPoint) (i : nat) :
  getClosestDataPoint (inject_Z (Z.of_nat i)) points = points !! i
  ∧ getClosestDataPoint (inject_Z (Z.of_nat i) + (1 # 2)) points
    = points !! S i.
Proof.
  unfold getClosestDataPoint, Math_round, at_index. split.
  - rewrite (Qfloor_unique _ (Z.of_nat i)); [|lra|lra].
    destruct (Z.ltb_spec (Z.of_nat i) 0); [lia|]. by rewrite Nat2Z.id.
  - rewrite (Qfloor_unique _ (Z.of_nat (S i))).
    + destruct (Z.ltb_spec (Z.of_nat (S i)) 0); [lia|]. by rewrite Nat2Z.id.
    + rewrite Nat2Z.inj_succ, <- Z.add_1_r, inject_Z_plus.
      change (inject_Z 1) with 1%Q. lra.
    + rewrite Nat2Z.inj_succ, <- Z.add_1_r, inject_Z_plus.
      change (inject_Z 1) with 1%Q. lra.
Qed.

(** X14. The tooltip delegate reads the visual's current view model, not
    the one it was registered for: when the visual holds no view model and
    the hover position rounds to a point of the rendered data, the delegate
    raises an error instead of returning a payload. *)
Theorem tooltipInfoDelegate_without_view_model (this : DifferenceAreaChart)
  (rendered : DifferenceAreaChartViewModel) (registered : bool)
  (xIndex : number) :
  viewModel this = None →
  (0 ≤ Math_round xIndex < Z.of_nat (length (data rendered)))%Z →
  tooltipInfoDelegate this rendered registered xIndex
  = Throw (TypeError "this.viewModel.data").
Proof.
  intros Hnone Hrange.
  destruct (at_index_in_range (data rendered) _ Hrange)
    as (dataPoint & _ & Hat).
  unfold tooltipInfoDelegate, getClosestDataPoint. by rewrite Hat, Hnone.
Qed.

Lemma tooltipInfoDelegate_without_view_model_witness :
  tooltipInfoDelegate Samples.initialized Samples.built false (1 # 1)
  = Throw (TypeError "this.viewModel.data").
Proof.
  apply tooltipInfoDelegate_without_view_model.
  - reflexivity.
  - vm_compute. split; congruence.
Defined.

(** ** The plot area *)




(** ** A series group without its Low column *)

Lemma parseDataPoint_low_missing dataViewCategorical firstCategory seriesValues
  lowMeasureIndex highMeasureIndex i :
  lowColumnMissing seriesValues lowMeasureIndex →
  ∃ e, parseDataPoint dataViewCategorical firstCategory seriesValues
         lowMeasureIndex highMeasureIndex i = Throw e.
Proof.
  intros Hmissing. unfold parseDataPoint.
  destruct (categories dataViewCategorical); [|eexists; reflexivity].
  simpl. destruct Hmissing as [-> | (lowColumn & -> & Hsource)]; simpl.
  - eexists. reflexivity.
  - rewrite Hsource. eexists. reflexivity.
Qed.

Lemma seriesLoop_low_missing dataViewCategorical firstCategory
  lowMeasureIndex highMeasureIndex columns groups :
  categories dataViewCategorical = Some columns →
  ∀ seriesIndex dataPoints position group column,
    groups !! position = Some group →
    columns !! (seriesIndex + position)%nat = Some column →
    category_values column ≠ [] →
    lowColumnMissing (group_values group) lowMeasureIndex →
    ∃ e, seriesLoop dataViewCategorical firstCategory
           lowMeasureIndex highMeasureIndex groups seriesIndex dataPoints
         = Throw e.
Proof.
  intros Hcolumns.
  induction groups as [|head rest IH];
    intros seriesIndex dataPoints position group column Hgroup Hcolumn
      Hlabels Hmissing.
  - by rewrite lookup_nil in Hgroup.
  - cbn [seriesLoop]. rewrite Hcolumns. simpl prop. rewrite bind_Ok.
    destruct (columns !! seriesIndex) as [current|] eqn:Hcurrent;
      [|eexists; reflexivity].
    simpl prop. rewrite bind_Ok.
    destruct position as [|position].
    + simpl in Hgroup. injection Hgroup as ->.
      rewrite Nat.add_0_r, Hcurrent in Hcolumn. injection Hcolumn as ->.
      destruct (category_values column) as [|label labels]; [done|].
      cbn [length categoryLoop].
      destruct (parseDataPoint_low_missing dataViewCategorical firstCategory
                  (group_values group) lowMeasureIndex highMeasureIndex 0%nat
                  Hmissing) as [e ->].
      eexists. reflexivity.
    + destruct (categoryLoop _ _ _ _) as [added|e]; [|eexists; reflexivity].
      rewrite bind_Ok.
      apply (IH (S seriesIndex) added position group column); try done.
      by replace (S seriesIndex + position)%nat
        with (seriesIndex + S position)%nat by lia.
Qed.

(** X16. When both role lookups succeed, [parseToDataPoints] raises an
    error whenever some series group holds no Low column with a source
    while the category column at that group's position has a label: the
    Low formatter reads [lowMeasure.source.format] without a guard. *)
Theorem parseToDataPoints_group_without_low
  (dataViewCategorical : DataViewCategorical)
  (columns : list DataViewCategoryColumn) (position : nat)
  (group : DataViewValueColumnGroup) (column : DataViewCategoryColumn) :
  rolesFound dataViewCategorical →
  categories dataViewCategorical = Some columns →
  groupedValues dataViewCategorical !! position = Some group →
  columns !! position = Some column →
  category_values column ≠ [] →
  lowColumnMissing (group_values group)
    (getMeasureIndexOfRole (groupedValues dataViewCategorical) "Low") →
  ∃ e, parseToDataPoints dataViewCategorical = Throw e.
Proof.
  intros [Hlow Hhigh] Hcolumns Hgroup Hcolumn Hlabels Hmissing.
  unfold parseToDataPoints.
  apply Z.leb_le in Hlow, Hhigh. rewrite Hlow, Hhigh. simpl andb. cbv iota.
  by eapply (seriesLoop_low_missing _ _ _ _ columns _ Hcolumns 0%nat []
               position group column).
Qed.

Lemma parseToDataPoints_group_without_low_witness :
  ∃ e, parseToDataPoints Samples.secondGroupWithoutLow = Throw e.
Proof.
  apply (parseToDataPoints_group_without_low Samples.secondGroupWithoutLow
           [Samples.category ["A"; "B"]; Samples.category ["A"; "B"]] 1%nat
           {| group_values := [Samples.measure "High" [5; 4]%Z] |}
           (Samples.category ["A"; "B"])).
  - split; vm_compute; congruence.
  - reflexivity.
  - reflexivity.
  - reflexivity.
  - discriminate.
  - left. vm_compute. reflexivity.
Defined.

(** ** Reading the dataset *)

Lemma at_index_of_nat {A : Type} (array : list A) (position : nat) :
  at_index array (Z.of_nat position) = array !! position.
Proof.
  unfold at_index. destruct (Z.ltb_spec (Z.of_nat position) 0); [lia|].
  by rewrite Nat2Z.id.
Qed.

Lemma measureValue_cellOf column i : cellOf column i (measureValue column i).
Proof.
  destruct column as [column|]; simpl; [|constructor].
  destruct (column_values column) as [cells|] eqn:Hcells;
    [|by constructor].
  destruct (cells !! i) as [cell|] eqn:Hcell; simpl.
  - by eapply cell_read.
  - by eapply cell_past_end.
Qed.

Lemma indexOfRole_firstCarrying columns roleName i position :
  firstCarrying roleName columns position →
  indexOfRole columns roleName i = (i + Z.of_nat position)%Z.
Proof.
  revert i position.
  induction columns as [|head rest IH]; intros i position [[column [Hat Hrole]] Hfirst].
  - by rewrite lookup_nil in Hat.
  - simpl. destruct position as [|position].
    + simpl in Hat. injection Hat as ->. rewrite Hrole. lia.
    + rewrite (Hfirst 0%nat head) by (done || lia).
      rewrite (IH (i + 1)%Z position); [lia|].
      split; [by exists column|].
      intros earlier c Hearlier Hc. apply (Hfirst (S earlier) c); [lia | done].
Qed.

Lemma indexOfRole_position columns roleName i :
  (0 ≤ i)%Z → (0 ≤ indexOfRole columns roleName i)%Z →
  ∃ position,
    firstCarrying roleName columns position
    ∧ indexOfRole columns roleName i = (i + Z.of_nat position)%Z.
Proof.
  revert i. induction columns as [|head rest IH]; intros i Hi Hfound;
    simpl in *; [lia|].
  destruct (carriesRole roleName head) eqn:Hhead.
  - exists 0%nat. split; [|lia]. split; [by exists head|]. intros; lia.
  - destruct (IH (i + 1)%Z) as (position & [[column [Hat Hrole]] Hfirst] & Hindex);
      [lia | done |].
    exists (S position). split; [|lia]. split; [by exists column|].
    intros [|earlier] c Hearlier Hc; simpl in Hc.
    + by injection Hc as <-.
    + apply (Hfirst earlier c); [lia | done].
Qed.

Lemma firstCarrying_someColumnCarries dataViewCategorical group roleName
  position :
  group ∈ groupedValues dataViewCategorical →
  firstCarrying roleName (group_values group) position →
  someColumnCarries dataViewCategorical roleName.
Proof.
  intros Hgroup [[column [Hat Hrole]] _]. exists group, column.
  split; [done|]. split; [|done]. by eapply list_elem_of_lookup_2.
Qed.

Lemma parseDataPoint_shape dataViewCategorical firstCategory seriesValues
  lowMeasureIndex highMeasureIndex i dataPoint :
  parseDataPoint dataViewCategorical firstCategory seriesValues
    lowMeasureIndex highMeasureIndex i = Ok dataPoint →
  ∃ columns lowColumn lowSource,
    categories dataViewCategorical = Some columns
    ∧ at_index seriesValues lowMeasureIndex = Some lowColumn
    ∧ column_source lowColumn = Some lowSource
    ∧ dataPoint
      = {| low := measureValue (Some lowColumn) i;
           high := measureValue (at_index seriesValues highMeasureIndex) i;
           categoryIndex := i;
           categoryValue := category_values firstCategory !! i;
           tooltipInfo :=
             {| tooltip_formatString := Properties.general_formatString;
                tooltip_categoryValue := category_values firstCategory !! i;
                tooltip_categories := [columns !! 0%nat];
                tooltip_seriesData :=
                  [ {| item_value :=
                         {| formatter :=
                              {| vf_format := format lowSource;
                                 allowFormatBeautification := true;
                                 columnType := type lowSource |};
                            formatted := measureValue (Some lowColumn) i |};
                       item_metadata := Some lowColumn |};
                    {| item_value :=
                         {| formatter :=
                              {| vf_format :=
                                   (at_index seriesValues highMeasureIndex
                                      ≫= column_source) ≫= format;
                                 allowFormatBeautification := true;
                                 columnType :=
                                   (at_index seriesValues highMeasureIndex
                                      ≫= column_source) ≫= type |};
                            formatted :=
                              measureValue
                                (at_index seriesValues highMeasureIndex) i |};
                       item_metadata :=
                         at_index seriesValues highMeasureIndex |} ] |} |}.
Proof.
  unfold parseDataPoint.
  destruct (categories dataViewCategorical) as [columns|]; [|discriminate].
  destruct (at_index seriesValues lowMeasureIndex) as [lowColumn|] eqn:Hlow;
    [|discriminate].
  simpl. destruct (column_source lowColumn) as [lowSource|] eqn:Hsource;
    [|discriminate].
  simpl. intros [= <-]. by exists columns, lowColumn, lowSource.
Qed.

(** Every returned point was built by the loop body for some series group. *)
Lemma parseToDataPoints_bodies dataViewCategorical dataPoints :
  parseToDataPoints dataViewCategorical = Ok dataPoints →
  Forall (λ dataPoint,
            ∃ group i,
              group ∈ groupedValues dataViewCategorical
              ∧ parseDataPoint dataViewCategorical
                  (firstCategoryOrBlank dataViewCategorical)
                  (group_values group)
                  (getMeasureIndexOfRole (groupedValues dataViewCategorical) "Low")
                  (getMeasureIndexOfRole (groupedValues dataViewCategorical) "High")
                  i = Ok dataPoint)
    dataPoints.
Proof.
  unfold parseToDataPoints.
  destruct (_ && _); [|intros [= <-]; constructor].
  apply seriesLoop_Forall; [constructor|].
  intros group i dataPoint Hgroup Hpoint. by exists group, i.
Qed.

(** A non-empty result means both lookups succeeded in the first group. *)
Lemma parseToDataPoints_positions dataViewCategorical dataPoints :
  parseToDataPoints dataViewCategorical = Ok dataPoints →
  dataPoints ≠ [] →
  ∃ firstGroup lowPosition highPosition,
    groupedValues dataViewCategorical !! 0%nat = Some firstGroup
    ∧ firstCarrying "Low" (group_values firstGroup) lowPosition
    ∧ firstCarrying "High" (group_values firstGroup) highPosition
    ∧ getMeasureIndexOfRole (groupedValues dataViewCategorical) "Low"
      = Z.of_nat lowPosition
    ∧ getMeasureIndexOfRole (groupedValues dataViewCategorical) "High"
      = Z.of_nat highPosition.
Proof.
  unfold parseToDataPoints.
  destruct (0 <=? _)%Z eqn:Hlow; [|by intros [= <-]].
  destruct (0 <=? getMeasureIndexOfRole _ "High")%Z eqn:Hhigh;
    [|by intros [= <-]].
  intros _ _. apply Z.leb_le in Hlow, Hhigh.
  destruct (groupedValues dataViewCategorical) as [|firstGroup rest];
    [simpl in Hlow; lia|].
  simpl in Hlow, Hhigh.
  destruct (indexOfRole_position _ _ 0 ltac:(lia) Hlow)
    as (lowPosition & Hlowfirst & Hlowindex).
  destruct (indexOfRole_position _ _ 0 ltac:(lia) Hhigh)
    as (highPosition & Hhighfirst & Hhighindex).
  exists firstGroup, lowPosition, highPosition. simpl.
  split; [done|]. split; [done|]. split; [done|]. split; lia.
Qed.

(** X1. Every data point [parseToDataPoints] returns is read off the
    dataset: its label is the one the first category column holds at its
    [categoryIndex] -- never the synthetic blank label -- and its low and
    high are the cells at that index of the columns that one series group
    holds at the positions of the first group's first Low and first High
    column (0 for an absent column or cell array). *)
Theorem parseToDataPoints_points_from_dataset
  (dataViewCategorical : DataViewCategorical)
  (dataPoints : list DifferenceAreaChartDataPoint) :
  parseToDataPoints dataViewCategorical = Ok dataPoints →
  Forall (pointFromColumns dataViewCategorical) dataPoints.
Proof.
  intros Hparse.
  destruct (decide (dataPoints = [])) as [-> | Hnonempty]; [constructor|].
  destruct (parseToDataPoints_first_category _ _ Hparse Hnonempty)
    as (columns & first & Hcolumns & Hfirst & Hblank).
  destruct (parseToDataPoints_positions _ _ Hparse Hnonempty)
    as (firstGroup & lowPosition & highPosition & Hgroup0 & Hlowfirst
        & Hhighfirst & Hlowindex & Hhighindex).
  eapply Forall_impl; [exact (parseToDataPoints_bodies _ _ Hparse)|].
  intros dataPoint (group & i & Hgroup & Hbody). simpl in Hbody.
  rewrite Hlowindex, Hhighindex, Hblank in Hbody.
  apply parseDataPoint_shape in Hbody
    as (columns' & lowColumn & lowSource & _ & Hlow & _ & ->).
  rewrite at_index_of_nat in Hlow. rewrite at_index_of_nat.
  exists columns, first, firstGroup, group, lowPosition, highPosition.
  cbn [low high categoryIndex categoryValue].
  do 7 (split; [done|]). split.
  - rewrite Hlow. apply measureValue_cellOf.
  - apply measureValue_cellOf.
Qed.

Lemma parseToDataPoints_points_from_dataset_witness :
  let dataPoints :=
    match parseToDataPoints Samples.twoSeriesTwoColumns with
    | Ok dataPoints => dataPoints
    | Throw _ => []
    end in
  Forall (pointFromColumns Samples.twoSeriesTwoColumns) dataPoints
  ∧ (λ dataPoint,
       (categoryValue dataPoint, low dataPoint, high dataPoint)) <$> dataPoints
    = [ (Some "A", PNumber 1, PNumber 3); (Some "B", PNumber 2, PNumber 3);
        (Some "A", PNumber 2, PNumber 5); (Some "B", PNumber 2, PNumber 4) ].
Proof.
  split.
  - apply parseToDataPoints_points_from_dataset. vm_compute. reflexivity.
  - vm_compute. reflexivity.
Defined.

(** X2. The tooltip of every data point [parseToDataPoints] returns is
    read off the dataset: for the series group whose cells the point
    holds, it shows the point's label, then the point's low value under
    the formatter made from the format and type of that group's Low column
    and the point's high value under the formatter of that group's High
    column, each tagged with that very column. *)
Theorem parseToDataPoints_tooltips
  (dataViewCategorical : DataViewCategorical)
  (dataPoints : list DifferenceAreaChartDataPoint) :
  parseToDataPoints dataViewCategorical = Ok dataPoints →
  Forall (tooltipFromColumns dataViewCategorical) dataPoints.
Proof.
  intros Hparse.
  destruct (decide (dataPoints = [])) as [-> | Hnonempty]; [constructor|].
  destruct (parseToDataPoints_first_category _ _ Hparse Hnonempty)
    as (columns & first & Hcolumns & Hfirst & Hblank).
  destruct (parseToDataPoints_positions _ _ Hparse Hnonempty)
    as (firstGroup & lowPosition & highPosition & Hgroup0 & Hlowfirst
        & Hhighfirst & Hlowindex & Hhighindex).
  eapply Forall_impl; [exact (parseToDataPoints_bodies _ _ Hparse)|].
  intros dataPoint (group & i & Hgroup & Hbody). simpl in Hbody.
  rewrite Hlowindex, Hhighindex, Hblank in Hbody.
  apply parseDataPoint_shape in Hbody
    as (columns' & lowColumn & lowSource & Hcolumns' & Hlow & Hsource & ->).
  rewrite Hcolumns in Hcolumns'. injection Hcolumns' as <-.
  rewrite at_index_of_nat in Hlow. rewrite !at_index_of_nat.
  exists columns, firstGroup, group, lowPosition, highPosition, lowColumn,
    lowSource.
  cbn [low high categoryIndex categoryValue tooltipInfo].
  do 7 (split; [done|]).
  split; [apply measureValue_cellOf|].
  split; [apply measureValue_cellOf|]. reflexivity.
Qed.

Lemma parseToDataPoints_tooltips_witness :
  let dataPoints :=
    match parseToDataPoints Samples.oneSeries with
    | Ok dataPoints => dataPoints
    | Throw _ => []
    end in
  Forall (tooltipFromColumns Samples.oneSeries) dataPoints
  ∧ (λ dataPoint,
       (λ item, (formatted (item_value item),
                 columnType (formatter (item_value item)),
                 displayName <$> (item_metadata item ≫= column_source)))
         <$> tooltip_seriesData (tooltipInfo dataPoint)) <$> dataPoints
    = [ [ (PNumber 1, Some TypeNumeric, Some "Low");
          (PNumber 3, Some TypeNumeric, Some "High") ];
        [ (PNumber 2, Some TypeNumeric, Some "Low");
          (PNumber 3, Some TypeNumeric, Some "High") ];
        [ (PNumber 1, Some TypeNumeric, Some "Low");
          (PNumber 4, Some TypeNumeric, Some "High") ] ].
Proof.
  split.
  - apply parseToDataPoints_tooltips. vm_compute. reflexivity.
  - vm_compute. reflexivity.
Defined.

(** ** One series group, column by column *)

Lemma fmap_by_lookup {A B : Type} (f : A → B) (l : list A) (k : list B) :
  length l = length k →
  (∀ i a, l !! i = Some a → k !! i = Some (f a)) →
  f <$> l = k.
Proof.
  intros Hlength Hlookup. apply list_eq. intros i. rewrite list_lookup_fmap.
  destruct (l !! i) as [a|] eqn:Ha; simpl.
  - symmetry. by apply Hlookup.
  - symmetry. apply lookup_ge_None. apply lookup_ge_None in Ha. lia.
Qed.

Lemma parseToDataPoints_single_series_cells dataViewCategorical group columns
  first lowPosition highPosition lowColumn highColumn lowCells highCells :
  groupedValues dataViewCategorical = [group] →
  categories dataViewCategorical = Some columns →
  columns !! 0%nat = Some first →
  firstCarrying "Low" (group_values group) lowPosition →
  firstCarrying "High" (group_values group) highPosition →
  group_values group !! lowPosition = Some lowColumn →
  group_values group !! highPosition = Some highColumn →
  column_values lowColumn = Some lowCells →
  column_values highColumn = Some highCells →
  length lowCells = length (category_values first) →
  length highCells = length (category_values first) →
  ∃ dataPoints,
    parseToDataPoints dataViewCategorical = Ok dataPoints
    ∧ dataFromColumns dataPoints (category_values first) lowCells highCells.
Proof.
  intros Hgroups Hcolumns Hfirst Hlowfirst Hhighfirst Hlowcolumn Hhighcolumn
    Hlowcells Hhighcells Hlowlength Hhighlength.
  assert (group ∈ groupedValues dataViewCategorical) as Hgroup
    by (rewrite Hgroups; apply list_elem_of_here).
  destruct (parseToDataPoints_single_series_values dataViewCategorical group
              columns first Hgroups Hcolumns Hfirst)
    as (dataPoints & Hparse & Hlength & Hvalues).
  { by eapply firstCarrying_someColumnCarries. }
  { by eapply firstCarrying_someColumnCarries. }
  assert (∀ i dataPoint,
            dataPoints !! i = Some dataPoint →
            categoryIndex dataPoint = i
            ∧ categoryValue dataPoint = category_values first !! i
            ∧ lowCells !! i = Some (low dataPoint)
            ∧ highCells !! i = Some (high dataPoint)) as Hpoint.
  { intros i dataPoint Hi.
    destruct (Hvalues i dataPoint Hi) as (Hindex & Hlabel & Hlow & Hhigh).
    rewrite Hgroups in Hlow, Hhigh. simpl in Hlow, Hhigh.
    rewrite (indexOfRole_firstCarrying _ _ 0 lowPosition Hlowfirst),
      Z.add_0_l, at_index_of_nat, Hlowcolumn in Hlow.
    rewrite (indexOfRole_firstCarrying _ _ 0 highPosition Hhighfirst),
      Z.add_0_l, at_index_of_nat, Hhighcolumn in Hhigh.
    simpl in Hlow, Hhigh. rewrite Hlowcells in Hlow. rewrite Hhighcells in Hhigh.
    apply lookup_lt_Some in Hi.
    destruct (lookup_lt_is_Some_2 lowCells i) as [lowCell Hlowcell]; [lia|].
    destruct (lookup_lt_is_Some_2 highCells i) as [highCell Hhighcell]; [lia|].
    rewrite Hlowcell in Hlow. rewrite Hhighcell in Hhigh. simpl in Hlow, Hhigh.
    by rewrite Hlow, Hhigh. }
  exists dataPoints. split; [done|]. unfold dataFromColumns.
  split; [|split; [|split]]; apply fmap_by_lookup.
  - by rewrite length_seq.
  - intros i dataPoint Hi. destruct (Hpoint _ _ Hi) as (-> & _).
    apply lookup_lt_Some in Hi. apply lookup_seq_lt. lia.
  - by rewrite length_fmap.
  - intros i dataPoint Hi. destruct (Hpoint _ _ Hi) as (_ & -> & _).
    apply lookup_lt_Some in Hi. rewrite list_lookup_fmap.
    destruct (lookup_lt_is_Some_2 (category_values first) i) as [label ->];
      [lia | done].
  - lia.
  - intros i dataPoint Hi. by destruct (Hpoint _ _ Hi) as (_ & _ & -> & _).
  - lia.
  - intros i dataPoint Hi. by destruct (Hpoint _ _ Hi) as (_ & _ & _ & ->).
Qed.

(** X11. For a dataset with one series group, whose first Low and first
    High column each hold one cell per label of the first category column,
    [parseToDataPoints] returns the dataset column by column: the category
    indices are 0, 1, ..., the labels are those of the first category
    column, the low values are the cells of the Low column and the high
    values the cells of the High column, in order. *)
Theorem parseToDataPoints_single_series_point_values
  (dataViewCategorical : DataViewCategorical)
  (group : DataViewValueColumnGroup)
  (columns : list DataViewCategoryColumn) (first : DataViewCategoryColumn)
  (lowPosition highPosition : nat)
  (lowColumn highColumn : DataViewValueColumn)
  (lowCells highCells : list PrimitiveValue) :
  groupedValues dataViewCategorical = [group] →
  categories dataViewCategorical = Some columns →
  columns !! 0%nat = Some first →
  firstCarrying "Low" (group_values group) lowPosition →
  firstCarrying "High" (group_values group) highPosition →
  group_values group !! lowPosition = Some lowColumn →
  group_values group !! highPosition = Some highColumn →
  column_values lowColumn = Some lowCells →
  column_values highColumn = Some highCells →
  length lowCells = length (category_values first) →
  length highCells = length (category_values first) →
  ∃ dataPoints,
    parseToDataPoints dataViewCategorical = Ok dataPoints
    ∧ dataFromColumns dataPoints (category_values first) lowCells highCells.
Proof. apply parseToDataPoints_single_series_cells. Qed.

(** In the one-series sample, Low comes first and High second. *)
Lemma oneSeries_low_first :
  firstCarrying "Low"
    [Samples.measure "Low" [1; 2; 1]%Z; Samples.measure "High" [3; 3; 4]%Z]
    0%nat.
Proof.
  split.
  - eexists. split; [reflexivity | vm_compute; reflexivity].
  - intros earlier column Hearlier. lia.
Qed.

Lemma oneSeries_high_second :
  firstCarrying "High"
    [Samples.measure "Low" [1; 2; 1]%Z; Samples.measure "High" [3; 3; 4]%Z]
    1%nat.
Proof.
  split.
  - eexists. split; [reflexivity | vm_compute; reflexivity].
  - intros [|earlier] column Hearlier Hat; [|lia].
    injection Hat as <-. vm_compute. reflexivity.
Qed.

Lemma parseToDataPoints_single_series_point_values_witness :
  ∃ dataPoints,
    parseToDataPoints Samples.oneSeries = Ok dataPoints
    ∧ dataFromColumns dataPoints ["A"; "B"; "C"]
        [PNumber 1; PNumber 2; PNumber 1] [PNumber 3; PNumber 3; PNumber 4].
Proof.
  apply (parseToDataPoints_single_series_point_values Samples.oneSeries
           {| group_values := [Samples.measure "Low" [1; 2; 1]%Z;
                               Samples.measure "High" [3; 3; 4]%Z] |}
           [Samples.category ["A"; "B"; "C"]]
           (Samples.category ["A"; "B"; "C"])
           0%nat 1%nat
           (Samples.measure "Low" [1; 2; 1]%Z)
           (Samples.measure "High" [3; 3; 4]%Z)
           [PNumber 1; PNumber 2; PNumber 1]
           [PNumber 3; PNumber 3; PNumber 4]);
    try reflexivity.
  - apply oneSeries_low_first.
  - apply oneSeries_high_second.
Defined.

(** X13. For such a dataset, hovering at a position whose rounding [r] is
    a category position selects, from the data [parseToDataPoints] built,
    the point of category [r]: its index is [r], its label the label [r]
    of the first category column, its low the cell [r] of the Low column
    and its high the cell [r] of the High column. *)
Theorem hover_selects_category
  (dataViewCategorical : DataViewCategorical)
  (group : DataViewValueColumnGroup)
  (columns : list DataViewCategoryColumn) (first : DataViewCategoryColumn)
  (lowPosition highPosition : nat)
  (lowColumn highColumn : DataViewValueColumn)
  (lowCells highCells : list PrimitiveValue) (xIndex : number) :
  groupedValues dataViewCategorical = [group] →
  categories dataViewCategorical = Some columns →
  columns !! 0%nat = Some first →
  firstCarrying "Low" (group_values group) lowPosition →
  firstCarrying "High" (group_values group) highPosition →
  group_values group !! lowPosition = Some lowColumn →
  group_values group !! highPosition = Some highColumn →
  column_values lowColumn = Some lowCells →
  column_values highColumn = Some highCells →
  length lowCells = length (category_values first) →
  length highCells = length (category_values first) →
  (0 ≤ Math_round xIndex < Z.of_nat (length (category_values first)))%Z →
  ∃ dataPoints dataPoint,
    parseToDataPoints dataViewCategorical = Ok dataPoints
    ∧ getClosestDataPoint xIndex dataPoints = Some dataPoint
    ∧ categoryIndex dataPoint = Z.to_nat (Math_round xIndex)
    ∧ categoryValue dataPoint
      = category_values first !! Z.to_nat (Math_round xIndex)
    ∧ lowCells !! Z.to_nat (Math_round xIndex) = Some (low dataPoint)
    ∧ highCells !! Z.to_nat (Math_round xIndex) = Some (high dataPoint).
Proof.
  intros Hgroups Hcolumns Hfirst Hlowfirst Hhighfirst Hlowcolumn Hhighcolumn
    Hlowcells Hhighcells Hlowlength Hhighlength Hrange.
  destruct (parseToDataPoints_single_series_cells dataViewCategorical group
              columns first lowPosition highPosition lowColumn highColumn
              lowCells highCells)
    as (dataPoints & Hparse & Hindices & Hlabels & Hlow & Hhigh); try done.
  assert (length dataPoints = length (category_values first)) as Hlength.
  { rewrite <- (length_fmap categoryIndex), Hindices. apply length_seq. }
  rewrite <- Hlength in Hrange.
  destruct (at_index_in_range dataPoints _ Hrange)
    as (dataPoint & Hlookup & Hat).
  exists dataPoints, dataPoint. split; [done|]. split; [done|].
  pose proof (f_equal (λ l, l !! Z.to_nat (Math_round xIndex)) Hindices)
    as Hindex.
  pose proof (f_equal (λ l, l !! Z.to_nat (Math_round xIndex)) Hlabels)
    as Hlabel.
  cbv beta in Hindex, Hlabel.
  rewrite list_lookup_fmap, Hlookup in Hindex.
  rewrite list_lookup_fmap, Hlookup in Hlabel.
  cbn [fmap option_fmap option_map] in Hindex, Hlabel.
  rewrite lookup_seq_lt in Hindex by lia.
  rewrite list_lookup_fmap in Hlabel.
  rewrite <- Hlow, <- Hhigh, !list_lookup_fmap, Hlookup.
  split; [by injection Hindex|]. split; [|done].
  destruct (category_values first !! Z.to_nat (Math_round xIndex));
    cbn [fmap option_fmap option_map] in Hlabel; congruence.
Qed.

Lemma hover_selects_category_witness :
  ∃ dataPoints dataPoint,
    parseToDataPoints Samples.oneSeries = Ok dataPoints
    ∧ getClosestDataPoint (17 # 10) dataPoints = Some dataPoint
    ∧ categoryIndex dataPoint = 2%nat
    ∧ categoryValue dataPoint = Some "C"
    ∧ Some (PNumber 1) = Some (low dataPoint)
    ∧ Some (PNumber 4) = Some (high dataPoint).
Proof.
  apply (hover_selects_category Samples.oneSeries
           {| group_values := [Samples.measure "Low" [1; 2; 1]%Z;
                               Samples.measure "High" [3; 3; 4]%Z] |}
           [Samples.category ["A"; "B"; "C"]]
           (Samples.category ["A"; "B"; "C"])
           0%nat 1%nat
           (Samples.measure "Low" [1; 2; 1]%Z)
           (Samples.measure "High" [3; 3; 4]%Z)
           [PNumber 1; PNumber 2; PNumber 1]
           [PNumber 3; PNumber 3; PNumber 4] (17 # 10));
    try reflexivity.
  - apply oneSeries_low_first.
  - apply oneSeries_high_second.
  - vm_compute. split; congruence.
Defined.
